(** * Shader-program build pipeline of the glesdemos examples

    The examples of this repository build their shader programs with the
    same straight-line sequence of OpenGL ES calls.  One example
    (gles_depth_cube) extracts it into [createShaderProgram]; the others
    inline it into [main].  This development embeds

    - [createShaderProgram] of gles_depth_cube.cpp,
    - steps 6 to 9 of [main] of 07_gles_cube/gles_cube.cpp,
    - the compute-shader steps of [main] of
      x_gles_compute/gles_compute_pure.cpp,

    over a small model of the part of the GL driver these calls touch, and
    states what the build pipeline guarantees.

    The driver is an external collaborator: what its compiler and linker
    answer is a parameter ([Driver]); the object tables, the deletion rule
    of attached shaders and the size limit of the info log follow the
    OpenGL ES 3 specification. *)

From Stdlib Require Import ZArith.
From stdpp Require Import gmap strings list pretty.

Local Open Scope Z_scope.
Local Open Scope string_scope.

(** ** Strings of the C side *)

(** The line feed of the C format strings. *)
Definition LF : string := String (Ascii.ascii_of_nat 10) EmptyString.

(** The first [n] characters of [s]: what fits in a buffer of [n + 1]
    bytes, the last one being the terminating zero. *)
Fixpoint string_take (n : nat) (s : string) : string :=
  match n, s with
  | O, _ => EmptyString
  | S _, EmptyString => EmptyString
  | S n', String c s' => String c (string_take n' s')
  end.

(** ** The GL objects *)

Definition GLuint := N.

Inductive ShaderKind := GL_VERTEX_SHADER | GL_FRAGMENT_SHADER | GL_COMPUTE_SHADER.

Inductive ShaderPName := GL_COMPILE_STATUS.
Inductive ProgramPName := GL_LINK_STATUS.

Inductive GLerror := GL_INVALID_VALUE | GL_INVALID_OPERATION.

Record ShaderObj := {
  sh_kind : ShaderKind;
  sh_source : string;
  sh_compile_status : bool;
  sh_info_log : string;
  sh_delete_status : bool
}.

Record ProgramObj := {
  pr_attached : list N;
  pr_link_status : bool;
  pr_info_log : string
}.

(** Every call the examples make into the driver, with the names the
    driver handed out and the statuses it answered. *)
Inductive GLCall :=
| CreateShader (kind : ShaderKind) (name : N)
| ShaderSource (shader : N) (src : string)
| CompileShader (shader : N)
| GetShaderiv (shader : N) (pname : ShaderPName) (answer : bool)
| GetShaderInfoLog (shader : N) (bufSize : nat)
| CreateProgram (name : N)
| AttachShader (program shader : N)
| LinkProgram (program : N)
| GetProgramiv (program : N) (pname : ProgramPName) (answer : bool)
| GetProgramInfoLog (program : N) (bufSize : nat)
| DeleteShader (shader : N)
| UseProgram (program : N).

(** What the driver's compiler and linker answer: a status and an info
    log.  The linker sees the shader objects attached to the program. *)
Record Driver := {
  compile_result : ShaderKind -> string -> bool * string;
  link_result : list ShaderObj -> bool * string
}.

(** One [printf] of the process: the format string and the text that
    goes into its [%s]. *)
Inductive Output := Printf (format arg : string).

(** The process and its GL context: the object tables of the context, the
    history of driver calls and what was printed on the standard output. *)
Record World := {
  gl_next : N;
  gl_shaders : gmap N ShaderObj;
  gl_programs : gmap N ProgramObj;
  gl_current : N;
  gl_errors : list GLerror;
  gl_calls : list GLCall;
  stdout : list Output
}.

(** A context right after its creation: no object, names start at 1
    (0 is never a valid object name). *)
Definition fresh_context : World :=
  {| gl_next := 1%N; gl_shaders := ∅; gl_programs := ∅; gl_current := 0%N;
     gl_errors := []; gl_calls := []; stdout := [] |}.

(** ** Sequential code that may terminate the process *)

Inductive Outcome (A : Type) :=
| Returned (a : A)
| Exited (status : Z)
| Undefined.
Arguments Returned {A} a.
Arguments Exited {A} status.
Arguments Undefined {A}.

Definition Proc (A : Type) : Type := World -> Outcome A * World.

Definition ret {A} (a : A) : Proc A := fun w => (Returned a, w).

Definition bind {A B} (m : Proc A) (k : A -> Proc B) : Proc B :=
  fun w =>
    match m w with
    | (Returned a, w') => k a w'
    | (Exited status, w') => (Exited status, w')
    | (Undefined, w') => (Undefined, w')
    end.

Declare Scope proc_scope.
Delimit Scope proc_scope with proc.
Notation "x <- m ; k" := (bind m (fun x => k))
  (at level 100, m at next level, right associativity) : proc_scope.
Notation "m ;; k" := (bind m (fun _ => k))
  (at level 100, right associativity) : proc_scope.
Local Open Scope proc_scope.

(** [exit(status)], and [return status] out of [main]. *)
Definition exit {A} (status : Z) : Proc A := fun w => (Exited status, w).

(** [if (c) { body }] where the code goes on after the block. *)
Definition when (c : bool) (body : Proc unit) : Proc unit :=
  if c then body else ret tt.

(** [printf(format, arg)] with one [%s] in [format]. *)
Definition printf (format arg : string) : Proc unit :=
  fun w =>
    (Returned tt,
     {| gl_next := gl_next w; gl_shaders := gl_shaders w;
        gl_programs := gl_programs w; gl_current := gl_current w;
        gl_errors := gl_errors w; gl_calls := gl_calls w;
        stdout := stdout w ++ [Printf format arg] |}).

(** ** The driver calls *)

Definition log_call (c : GLCall) (w : World) : World :=
  {| gl_next := gl_next w; gl_shaders := gl_shaders w;
     gl_programs := gl_programs w; gl_current := gl_current w;
     gl_errors := gl_errors w; gl_calls := gl_calls w ++ [c];
     stdout := stdout w |}.

Definition set_shaders (m : gmap N ShaderObj) (w : World) : World :=
  {| gl_next := gl_next w; gl_shaders := m;
     gl_programs := gl_programs w; gl_current := gl_current w;
     gl_errors := gl_errors w; gl_calls := gl_calls w;
     stdout := stdout w |}.

Definition set_programs (m : gmap N ProgramObj) (w : World) : World :=
  {| gl_next := gl_next w; gl_shaders := gl_shaders w;
     gl_programs := m; gl_current := gl_current w;
     gl_errors := gl_errors w; gl_calls := gl_calls w;
     stdout := stdout w |}.

Definition raise_error (e : GLerror) (w : World) : World :=
  {| gl_next := gl_next w; gl_shaders := gl_shaders w;
     gl_programs := gl_programs w; gl_current := gl_current w;
     gl_errors := gl_errors w ++ [e]; gl_calls := gl_calls w;
     stdout := stdout w |}.

(** The driver hands out the next unused name. *)
Definition alloc_name (w : World) : World :=
  {| gl_next := N.succ (gl_next w); gl_shaders := gl_shaders w;
     gl_programs := gl_programs w; gl_current := gl_current w;
     gl_errors := gl_errors w; gl_calls := gl_calls w;
     stdout := stdout w |}.

Section Calls.
Variable drv : Driver.

Definition glCreateShader (kind : ShaderKind) : Proc GLuint := fun w =>
  let name := gl_next w in
  let obj := {| sh_kind := kind; sh_source := ""; sh_compile_status := false;
                sh_info_log := ""; sh_delete_status := false |} in
  (Returned name,
   log_call (CreateShader kind name)
     (set_shaders (<[name := obj]> (gl_shaders w)) (alloc_name w))).

(** [glShaderSource(shader, 1, &src, NULL)]. *)
Definition glShaderSource (shader : GLuint) (src : string) : Proc unit := fun w =>
  let w := log_call (ShaderSource shader src) w in
  match gl_shaders w !! shader with
  | Some o =>
      let o' := {| sh_kind := sh_kind o; sh_source := src;
                   sh_compile_status := sh_compile_status o;
                   sh_info_log := sh_info_log o;
                   sh_delete_status := sh_delete_status o |} in
      (Returned tt, set_shaders (<[shader := o']> (gl_shaders w)) w)
  | None => (Returned tt, raise_error GL_INVALID_VALUE w)
  end.

Definition glCompileShader (shader : GLuint) : Proc unit := fun w =>
  let w := log_call (CompileShader shader) w in
  match gl_shaders w !! shader with
  | Some o =>
      let r := compile_result drv (sh_kind o) (sh_source o) in
      let o' := {| sh_kind := sh_kind o; sh_source := sh_source o;
                   sh_compile_status := fst r;
                   sh_info_log := snd r;
                   sh_delete_status := sh_delete_status o |} in
      (Returned tt, set_shaders (<[shader := o']> (gl_shaders w)) w)
  | None => (Returned tt, raise_error GL_INVALID_VALUE w)
  end.

(** [int success; glGetShaderiv(shader, pname, &success);] followed by a
    read of [success].  On an invalid name the driver leaves [success]
    as it is, that is uninitialised. *)
Definition glGetShaderiv (shader : GLuint) (pname : ShaderPName) : Proc bool := fun w =>
  match gl_shaders w !! shader with
  | Some o =>
      let answer := match pname with GL_COMPILE_STATUS => sh_compile_status o end in
      (Returned answer, log_call (GetShaderiv shader pname answer) w)
  | None => (Undefined, raise_error GL_INVALID_VALUE w)
  end.

(** [char info[bufSize]; glGetShaderInfoLog(shader, bufSize, NULL, info);]
    followed by a read of [info]: at most [bufSize - 1] characters of the
    log and the terminating zero. *)
Definition glGetShaderInfoLog (shader : GLuint) (bufSize : nat) : Proc string := fun w =>
  let w := log_call (GetShaderInfoLog shader bufSize) w in
  match gl_shaders w !! shader with
  | Some o => (Returned (string_take (bufSize - 1) (sh_info_log o)), w)
  | None => (Undefined, raise_error GL_INVALID_VALUE w)
  end.

Definition glCreateProgram : Proc GLuint := fun w =>
  let name := gl_next w in
  let obj := {| pr_attached := []; pr_link_status := false; pr_info_log := "" |} in
  (Returned name,
   log_call (CreateProgram name)
     (set_programs (<[name := obj]> (gl_programs w)) (alloc_name w))).

Definition glAttachShader (program shader : GLuint) : Proc unit := fun w =>
  let w := log_call (AttachShader program shader) w in
  match gl_programs w !! program, gl_shaders w !! shader with
  | Some p, Some _ =>
      if bool_decide (shader ∈ pr_attached p)
      then (Returned tt, raise_error GL_INVALID_OPERATION w)
      else
        let p' := {| pr_attached := pr_attached p ++ [shader];
                     pr_link_status := pr_link_status p;
                     pr_info_log := pr_info_log p |} in
        (Returned tt, set_programs (<[program := p']> (gl_programs w)) w)
  | _, _ => (Returned tt, raise_error GL_INVALID_VALUE w)
  end.

Definition glLinkProgram (program : GLuint) : Proc unit := fun w =>
  let w := log_call (LinkProgram program) w in
  match gl_programs w !! program with
  | Some p =>
      let r := link_result drv (omap (fun s => gl_shaders w !! s) (pr_attached p)) in
      let p' := {| pr_attached := pr_attached p;
                   pr_link_status := fst r;
                   pr_info_log := snd r |} in
      (Returned tt, set_programs (<[program := p']> (gl_programs w)) w)
  | None => (Returned tt, raise_error GL_INVALID_VALUE w)
  end.

Definition glGetProgramiv (program : GLuint) (pname : ProgramPName) : Proc bool := fun w =>
  match gl_programs w !! program with
  | Some p =>
      let answer := match pname with GL_LINK_STATUS => pr_link_status p end in
      (Returned answer, log_call (GetProgramiv program pname answer) w)
  | None => (Undefined, raise_error GL_INVALID_VALUE w)
  end.

Definition glGetProgramInfoLog (program : GLuint) (bufSize : nat) : Proc string := fun w =>
  let w := log_call (GetProgramInfoLog program bufSize) w in
  match gl_programs w !! program with
  | Some p => (Returned (string_take (bufSize - 1) (pr_info_log p)), w)
  | None => (Undefined, raise_error GL_INVALID_VALUE w)
  end.

(** A shader that is attached to a program is only flagged for deletion;
    the program keeps it.  A shader attached nowhere is deleted at once. *)
Definition glDeleteShader (shader : GLuint) : Proc unit := fun w =>
  let w := log_call (DeleteShader shader) w in
  match gl_shaders w !! shader with
  | Some o =>
      if bool_decide (map_Exists (fun _ p => shader ∈ pr_attached p) (gl_programs w))
      then
        let o' := {| sh_kind := sh_kind o; sh_source := sh_source o;
                     sh_compile_status := sh_compile_status o;
                     sh_info_log := sh_info_log o;
                     sh_delete_status := true |} in
        (Returned tt, set_shaders (<[shader := o']> (gl_shaders w)) w)
      else (Returned tt, set_shaders (delete shader (gl_shaders w)) w)
  | None => (Returned tt, raise_error GL_INVALID_VALUE w)
  end.

(** Only a successfully linked program can be made current. *)
Definition glUseProgram (program : GLuint) : Proc unit := fun w =>
  let w := log_call (UseProgram program) w in
  match gl_programs w !! program with
  | Some p =>
      if pr_link_status p
      then (Returned tt,
            {| gl_next := gl_next w; gl_shaders := gl_shaders w;
               gl_programs := gl_programs w; gl_current := program;
               gl_errors := gl_errors w; gl_calls := gl_calls w;
               stdout := stdout w |})
      else (Returned tt, raise_error GL_INVALID_OPERATION w)
  | None => (Returned tt, raise_error GL_INVALID_VALUE w)
  end.

End Calls.

(** ** gles_depth_cube.cpp *)

Module gles_depth_cube.
Section Code.
Variable drv : Driver.

Definition createShaderProgram (vertex_src fragment_src : string) : Proc GLuint :=
  (* X.1. Create the vertex shader. *)
  vertex_shader <- glCreateShader GL_VERTEX_SHADER;
  glShaderSource vertex_shader vertex_src;;
  glCompileShader drv vertex_shader;;
  success <- glGetShaderiv vertex_shader GL_COMPILE_STATUS;
  when (negb success) (
    info <- glGetShaderInfoLog vertex_shader 512;
    printf ("Vertex shader error:" +:+ LF +:+ "%s" +:+ LF) info;;
    exit (-3));;
  (* X.2. Create the fragment shader. *)
  fragment_shader <- glCreateShader GL_FRAGMENT_SHADER;
  glShaderSource fragment_shader fragment_src;;
  glCompileShader drv fragment_shader;;
  success <- glGetShaderiv fragment_shader GL_COMPILE_STATUS;
  when (negb success) (
    info <- glGetShaderInfoLog fragment_shader 512;
    printf ("Fragment shader error:" +:+ LF +:+ "%s" +:+ LF) info;;
    exit (-3));;
  (* X.3. Create a shader program and attach the vertex/fragment shaders. *)
  shader_program <- glCreateProgram;
  glAttachShader shader_program vertex_shader;;
  glAttachShader shader_program fragment_shader;;
  glLinkProgram drv shader_program;;
  success <- glGetProgramiv shader_program GL_LINK_STATUS;
  when (negb success) (
    info <- glGetProgramInfoLog shader_program 512;
    printf ("Program error:" +:+ LF +:+ "%s" +:+ LF) info;;
    exit (-3));;
  (* X.4. The vertex and fragment shaders can be removed after linking. *)
  glDeleteShader vertex_shader;;
  glDeleteShader fragment_shader;;
  ret shader_program.

(** Step 6 of [main]: the two programs of the example, the cube and the
    textured quad.  The four source texts are the string constants of the
    file. *)
Definition main_step_6
    (cube_vertex_src cube_fragment_src
     texture_display_vertex_src texture_display_fragment_src : string)
    : Proc (GLuint * GLuint) :=
  cube_program <- createShaderProgram cube_vertex_src cube_fragment_src;
  texture_program <-
    createShaderProgram texture_display_vertex_src texture_display_fragment_src;
  ret (cube_program, texture_program).

End Code.
End gles_depth_cube.

(** ** 07_gles_cube/gles_cube.cpp *)

Module gles_cube.
Section Code.
Variable drv : Driver.

(** Steps 6 to 9 of [main], inlined there; [return -3] leaves [main]. *)
Definition main_steps_6_9 (vertex_src fragment_src : string) : Proc GLuint :=
  (* 6. Create the vertex shader. *)
  vertex_shader <- glCreateShader GL_VERTEX_SHADER;
  glShaderSource vertex_shader vertex_src;;
  glCompileShader drv vertex_shader;;
  success <- glGetShaderiv vertex_shader GL_COMPILE_STATUS;
  when (negb success) (
    info <- glGetShaderInfoLog vertex_shader 512;
    printf ("Vertex shader error:" +:+ LF +:+ "%s" +:+ LF) info;;
    exit (-3));;
  (* 7. Create the fragment shader. *)
  fragment_shader <- glCreateShader GL_FRAGMENT_SHADER;
  glShaderSource fragment_shader fragment_src;;
  glCompileShader drv fragment_shader;;
  success <- glGetShaderiv fragment_shader GL_COMPILE_STATUS;
  when (negb success) (
    info <- glGetShaderInfoLog fragment_shader 512;
    printf ("Fragment shader error:" +:+ LF +:+ "%s" +:+ LF) info;;
    exit (-3));;
  (* 8. Create a shader program and attach the vertex/fragment shaders. *)
  shader_program <- glCreateProgram;
  glAttachShader shader_program vertex_shader;;
  glAttachShader shader_program fragment_shader;;
  glLinkProgram drv shader_program;;
  success <- glGetProgramiv shader_program GL_LINK_STATUS;
  when (negb success) (
    info <- glGetProgramInfoLog shader_program 512;
    printf ("Program error:" +:+ LF +:+ "%s" +:+ LF) info;;
    exit (-3));;
  (* 9. The vertex and fragment shaders can be removed after linking. *)
  glDeleteShader vertex_shader;;
  glDeleteShader fragment_shader;;
  ret shader_program.

End Code.
End gles_cube.

(** ** x_gles_compute/gles_compute_pure.cpp *)

Module gles_compute_pure.
Section Code.
Variable drv : Driver.

(** The shader steps of [main], between the activation of the context and
    the upload of the buffer. *)
Definition main_shader_steps (compute_src : string) : Proc GLuint :=
  (* Create the compute shader. *)
  compute_shader <- glCreateShader GL_COMPUTE_SHADER;
  glShaderSource compute_shader compute_src;;
  glCompileShader drv compute_shader;;
  success <- glGetShaderiv compute_shader GL_COMPILE_STATUS;
  when (negb success) (
    info <- glGetShaderInfoLog compute_shader 512;
    printf ("Compute shader error:" +:+ LF +:+ "%s" +:+ LF) info;;
    exit (-3));;
  (* Create a shader program and attach the compute shader. *)
  compute_program <- glCreateProgram;
  glAttachShader compute_program compute_shader;;
  glLinkProgram drv compute_program;;
  success <- glGetProgramiv compute_program GL_LINK_STATUS;
  when (negb success) (
    info <- glGetProgramInfoLog compute_program 512;
    printf ("Program error:" +:+ LF +:+ "%s" +:+ LF) info;;
    exit (-3));;
  (* The compute shader can be removed after linking. *)
  glDeleteShader compute_shader;;
  ret compute_program.

End Code.
End gles_compute_pure.

Import gles_depth_cube.

(** ** What a run did *)

(** The driver calls and the output made between two worlds of one run. *)
Definition calls_since (w w' : World) : list GLCall :=
  drop (length (gl_calls w)) (gl_calls w').

Definition printed_since (w w' : World) : list Output :=
  drop (length (stdout w)) (stdout w').

(** The names of the shader objects a sequence of calls created. *)
Definition created_shaders (calls : list GLCall) : list N :=
  omap (fun c => match c with CreateShader _ name => Some name | _ => None end) calls.

(** A shader handle is released once [glDeleteShader] took it: the object
    is gone, or flagged for deletion while a program still holds it. *)
Definition shader_released (w : World) (shader : N) : bool :=
  match gl_shaders w !! shader with
  | Some o => sh_delete_status o
  | None => true
  end.

Definition program_linked (w : World) (program : N) : bool :=
  match gl_programs w !! program with
  | Some p => pr_link_status p
  | None => false
  end.

(** A shader object after a successful compilation, not yet deleted. *)
Definition compiled_stage (kind : ShaderKind) (src log : string) : ShaderObj :=
  {| sh_kind := kind; sh_source := src; sh_compile_status := true;
     sh_info_log := log; sh_delete_status := false |}.

(** The same object once [glDeleteShader] flagged it. *)
Definition flagged_stage (kind : ShaderKind) (src log : string) : ShaderObj :=
  {| sh_kind := kind; sh_source := src; sh_compile_status := true;
     sh_info_log := log; sh_delete_status := true |}.

(** A shader object after a failed compilation. *)
Definition rejected_stage (kind : ShaderKind) (src log : string) : ShaderObj :=
  {| sh_kind := kind; sh_source := src; sh_compile_status := false;
     sh_info_log := log; sh_delete_status := false |}.

(** ** Drivers used as examples *)

(** A driver that accepts every shader and every program, without a word. *)
Definition accepting_driver : Driver :=
  {| compile_result := fun _ _ => (true, "");
     link_result := fun _ => (true, "") |}.

(** A driver whose compiler accepts every shader with a warning and whose
    linker rejects every program with the info log [log]. *)
Definition link_rejecting_driver (log : string) : Driver :=
  {| compile_result := fun _ _ => (true, "warning: unused variable");
     link_result := fun _ => (false, log) |}.

(** A driver whose compiler rejects the vertex shaders with the info log
    [log] and accepts the others. *)
Definition vertex_rejecting_driver (log : string) : Driver :=
  {| compile_result := fun kind _ =>
       match kind with
       | GL_VERTEX_SHADER => (false, log)
       | _ => (true, "")
       end;
     link_result := fun _ => (true, "") |}.

(** A driver that accepts every shader and every program and leaves a
    warning in each info log. *)
Definition warning_driver : Driver :=
  {| compile_result := fun _ _ => (true, "warning: unused variable");
     link_result := fun _ => (true, "warning: no vertex attribute") |}.

(** A driver whose compiler rejects the fragment shaders. *)
Definition fragment_rejecting_driver (log : string) : Driver :=
  {| compile_result := fun kind _ =>
       match kind with
       | GL_FRAGMENT_SHADER => (false, log)
       | _ => (true, "")
       end;
     link_result := fun _ => (true, "") |}.

(** ** The properties of a run *)

(** The first phase of the vertex and fragment pipeline that the driver
    rejects, with the info log the driver holds for it; [None] when the
    driver accepts both shaders and the program. *)
Inductive Phase := VertexCompile | FragmentCompile | ComputeCompile | Link.

Definition first_failure (drv : Driver) (v f : string) : option (Phase * string) :=
  let cv := compile_result drv GL_VERTEX_SHADER v in
  if negb (fst cv) then Some (VertexCompile, snd cv) else
  let cf := compile_result drv GL_FRAGMENT_SHADER f in
  if negb (fst cf) then Some (FragmentCompile, snd cf) else
  let l := link_result drv [compiled_stage GL_VERTEX_SHADER v (snd cv);
                            compiled_stage GL_FRAGMENT_SHADER f (snd cf)] in
  if negb (fst l) then Some (Link, snd l) else None.

(** The same for the compute pipeline. *)
Definition first_failure_compute (drv : Driver) (c : string) : option (Phase * string) :=
  let cc := compile_result drv GL_COMPUTE_SHADER c in
  if negb (fst cc) then Some (ComputeCompile, snd cc) else
  let l := link_result drv [compiled_stage GL_COMPUTE_SHADER c (snd cc)] in
  if negb (fst l) then Some (Link, snd l) else None.

(** The format string the examples print a failure of each phase with. *)
Definition error_format (ph : Phase) : string :=
  match ph with
  | VertexCompile => "Vertex shader error:" +:+ LF +:+ "%s" +:+ LF
  | FragmentCompile => "Fragment shader error:" +:+ LF +:+ "%s" +:+ LF
  | ComputeCompile => "Compute shader error:" +:+ LF +:+ "%s" +:+ LF
  | Link => "Program error:" +:+ LF +:+ "%s" +:+ LF
  end.

(** The kinds of the shader objects a sequence of calls created. *)
Definition created_kinds (calls : list GLCall) : list ShaderKind :=
  omap (fun c => match c with CreateShader kind _ => Some kind | _ => None end) calls.

Definition is_link (c : GLCall) : bool :=
  match c with LinkProgram _ => true | _ => false end.

Definition is_compile (c : GLCall) : bool :=
  match c with CompileShader _ => true | _ => false end.

Definition is_delete (c : GLCall) : bool :=
  match c with DeleteShader _ => true | _ => false end.

(** What a run looks like from outside, whatever names the driver handed
    out: the program was built, or the process ended with a status after
    printing a report. *)
Inductive Verdict :=
| Built
| Failed (status : Z) (report : list Output)
| Stuck.

Definition verdict (w : World) (r : Outcome GLuint * World) : Verdict :=
  match fst r with
  | Returned _ => Built
  | Exited status => Failed status (printed_since w (snd r))
  | Undefined => Stuck
  end.

(** Release of the stages as the specification words it: once a link was
    attempted, every stage the run created is released when the run ends,
    whether the link succeeded or not. *)
Definition stages_released_after_link (w : World) (r : Outcome GLuint * World) : Prop :=
  existsb is_link (calls_since w (snd r)) = true ->
  Forall (fun s => shader_released (snd r) s = true)
         (created_shaders (calls_since w (snd r))).

(** Release of the stages as the code does it: all of them when the
    program is returned, none of them when the process ends. *)
Definition stages_released_on_success_only (w : World) (r : Outcome GLuint * World) : Prop :=
  match r with
  | (Returned _, w') =>
      Forall (fun s => shader_released w' s = true)
             (created_shaders (calls_since w w'))
  | (Exited status, w') =>
      status = -3 /\
      existsb is_delete (calls_since w w') = false /\
      Forall (fun s => shader_released w' s = false)
             (created_shaders (calls_since w w'))
  | (Undefined, _) => False
  end.

(** The short circuit on a vertex failure as the specification words it,
    with a diagnostic that is never empty. *)
Definition vertex_failure_carries_nonempty_log
    (drv : Driver) (v f : string) (w : World) : Prop :=
  fst (compile_result drv GL_VERTEX_SHADER v) = false ->
  exists info w',
    createShaderProgram drv v f w = (Exited (-3), w') /\
    printed_since w w' = [Printf (error_format VertexCompile) info] /\
    info <> "" /\
    created_kinds (calls_since w w') = [GL_VERTEX_SHADER] /\
    existsb is_link (calls_since w w') = false.

(** The failure handed to the caller, as the specification words it: when
    the driver rejects a phase, what happens next is up to the caller of
    the builder, so some caller goes on. *)
Definition failure_left_to_caller (drv : Driver) (v f : string) (w : World) : Prop :=
  is_Some (first_failure drv v f) ->
  exists (caller : GLuint -> Proc unit) w',
    bind (createShaderProgram drv v f) caller w = (Returned tt, w').

(** The diagnostic of a failure as the specification words it: at most 512
    characters, attached to the failure, never empty. *)
Definition failure_log_attached_nonempty
    (drv : Driver) (v f : string) (w : World) : Prop :=
  is_Some (first_failure drv v f) ->
  exists format info w',
    createShaderProgram drv v f w = (Exited (-3), w') /\
    printed_since w w' = [Printf format info] /\
    (String.length info <= 512)%nat /\
    info <> "".

(** The info log is read exactly for the objects whose status query
    answered a failure, and never for one whose query answered a success. *)
Definition log_read_iff_failure (calls : list GLCall) : Prop :=
  (forall s, (exists n, GetShaderInfoLog s n ∈ calls) <->
             GetShaderiv s GL_COMPILE_STATUS false ∈ calls) /\
  (forall p, (exists n, GetProgramInfoLog p n ∈ calls) <->
             GetProgramiv p GL_LINK_STATUS false ∈ calls) /\
  (forall s n, GetShaderiv s GL_COMPILE_STATUS true ∈ calls ->
               GetShaderInfoLog s n ∉ calls) /\
  (forall p n, GetProgramiv p GL_LINK_STATUS true ∈ calls ->
               GetProgramInfoLog p n ∉ calls).

(** A run that returned the program printed nothing. *)
Definition silent_on_success {A} (w : World) (r : Outcome A * World) : Prop :=
  match r with
  | (Returned _, w') => printed_since w w' = []
  | _ => True
  end.

(** ** x_gles_compute/gles_compute_pure.cpp: the buffer of the compute shader *)

(** One [printf] with integer arguments: the format string and the values
    of its [%d]. *)
Inductive OutputD := PrintfD (format : string) (args : list Z).

(** A write and a read through a pointer into a mapped range of ints;
    [None] outside the range, where C leaves the behaviour undefined. *)
Definition store (idx v : Z) (mem : list Z) : option (list Z) :=
  if bool_decide (0 <= idx < Z.of_nat (length mem))
  then Some (<[Z.to_nat idx := v]> mem)
  else None.


Module gles_compute_pure_buffer.

(** [int itemCount = 10 * (2 + 2); // ivec2 + (2 * int padding)] *)
Definition itemCount : Z := 10 * (2 + 2).

(** [size_t calcBufferSize = itemCount * sizeof(int);] *)
Definition calcBufferSize : Z := itemCount * 4.

(** The loop that fills the mapped buffer:
    [for (int idx = 0; idx < itemCount; idx++) inputPtr[idx] = idx + 1;] *)
Definition upload (inputPtr : list Z) : option (list Z) :=
  foldl (fun mem idx => mem ≫= store idx (idx + 1)) (Some inputPtr)
        (seqZ 0 itemCount).

(** [main] of the shader [compute_src].  The block [data] holds
    [ivec2 values[10]] in the std140 layout: element [i] starts at int
    [4 * i] of the buffer, an [ivec2] followed by two ints of padding.  An
    index outside the array is undefined in GLSL. *)
Definition compute_src_main (gl_GlobalInvocationID : Z * Z * Z) (data : list Z)
    : option (list Z) :=
  (* ivec2 pos = ivec2(gl_GlobalInvocationID.xy); *)
  let pos_x := fst (fst gl_GlobalInvocationID) in
  (* data.values[pos.x] = ivec2(1000 + pos.x, 2000 + pos.x); *)
  if bool_decide (0 <= pos_x < 10)
  then data' ← store (4 * pos_x) (1000 + pos_x) data;
       store (4 * pos_x + 1) (2000 + pos_x) data'
  else None.

(** The invocations of [glDispatchCompute(x, y, z)] with the local size
    1 x 1 x 1 of the shader: one per work group. *)
Definition invocations (num_groups_x num_groups_y num_groups_z : Z)
    : list (Z * Z * Z) :=
  z ← seqZ 0 num_groups_z; y ← seqZ 0 num_groups_y; x ← seqZ 0 num_groups_x;
  [(x, y, z)].

(** The invocations run one after the other in [order]; the driver picks
    the order. *)
Definition run_invocations (order : list (Z * Z * Z)) (data : list Z)
    : option (list Z) :=
  foldl (fun mem id => mem ≫= compute_src_main id) (Some data) order.



End gles_compute_pure_buffer.

(** ** gles_compute_simple.cpp and its sibling: a graphics and a compute program *)

Module gles_compute_simple.
Section Code.
Variable drv : Driver.

(** Steps C.1 and C.2 of [main]: the compute program.  No step deletes
    the compute shader afterwards. *)
Definition main_steps_C1_C2 (compute_src : string) : Proc GLuint :=
  (* C.1. Create the Compute shader *)
  compute_shader <- glCreateShader GL_COMPUTE_SHADER;
  glShaderSource compute_shader compute_src;;
  glCompileShader drv compute_shader;;
  success <- glGetShaderiv compute_shader GL_COMPILE_STATUS;
  when (negb success) (
    info <- glGetShaderInfoLog compute_shader 512;
    printf ("Compute shader error:" +:+ LF +:+ "%s" +:+ LF) info;;
    exit (-3));;
  (* C.2. Create the Compute program *)
  compute_program <- glCreateProgram;
  glAttachShader compute_program compute_shader;;
  glLinkProgram drv compute_program;;
  success <- glGetProgramiv compute_program GL_LINK_STATUS;
  when (negb success) (
    info <- glGetProgramInfoLog compute_program 512;
    printf ("Compute Program error:" +:+ LF +:+ "%s" +:+ LF) info;;
    exit (-3));;
  ret compute_program.

(** Steps 6 to 9 of [main], the same text as steps 6 to 9 of gles_cube.cpp,
    followed by steps C.1 and C.2. *)
Definition main_steps_6_to_C2 (vertex_src fragment_src compute_src : string)
    : Proc (GLuint * GLuint) :=
  shader_program <- gles_cube.main_steps_6_9 drv vertex_src fragment_src;
  compute_program <- main_steps_C1_C2 compute_src;
  ret (shader_program, compute_program).

End Code.

(** The format string of the report of each phase of the compute build. *)
Definition compute_error_format (ph : Phase) : string :=
  match ph with
  | Link => "Compute Program error:" +:+ LF +:+ "%s" +:+ LF
  | _ => error_format ph
  end.

End gles_compute_simple.

(** A driver whose compiler rejects the compute shaders. *)
Definition compute_rejecting_driver : Driver :=
  {| compile_result := fun kind _ =>
       match kind with
       | GL_COMPUTE_SHADER => (false, "0:1: syntax error")
       | _ => (true, "")
       end;
     link_result := fun _ => (true, "") |}.

(** ** x_gles_wireframe/gles_wireframe.cpp: the wireframe mode *)

Module gles_wireframe.
Section Code.
(** The key and the action of GLFW/glfw3.h that the callback tests. *)
Variables GLFW_KEY_W GLFW_PRESS : Z.

(** [static int wireframeToggle = 0;] and what the callback printed. *)
Record Mode := { wireframeToggle : Z; printed : list OutputD }.

Definition initial : Mode := {| wireframeToggle := 0; printed := [] |}.

(** [key_callback(window, key, scancode, action, mods)]; [%] of C is the
    remainder of the truncated division. *)
Definition key_callback (key scancode action mods : Z) (m : Mode) : Mode :=
  if bool_decide (key = GLFW_KEY_W) && bool_decide (action = GLFW_PRESS)
  then
    let toggle := (wireframeToggle m + 1) `rem` 3 in
    {| wireframeToggle := toggle;
       printed := printed m ++ [PrintfD ("Wireframe Mode: %d" +:+ LF) [toggle]] |}
  else m.

(** The key events a run of the event loop delivers, each one as the
    arguments of the callback. *)
Definition deliver (events : list (Z * Z * Z * Z)) (m : Mode) : Mode :=
  foldl (fun m '(key, scancode, action, mods) =>
           key_callback key scancode action mods m) m events.

Definition is_W_press (e : Z * Z * Z * Z) : bool :=
  let '(key, _, action, _) := e in
  bool_decide (key = GLFW_KEY_W) && bool_decide (action = GLFW_PRESS).

End Code.

(** The [switch] of the fragment shader on its uniform [wireframeToggle],
    which the render loop sets to the variable of the same name at every
    frame: the value of [alpha], 1 for [1.0f] and 0 for [0.0f]; [None]
    when no case assigns it. *)
Definition fragment_alpha (wireframeToggle : Z) : option Z :=
  if bool_decide (wireframeToggle = 0) then Some 1
  else if bool_decide (wireframeToggle = 1) then Some 1
  else if bool_decide (wireframeToggle = 2) then Some 0
  else None.

End gles_wireframe.

(** ** gles_triangle.cpp: the image written to out.ppm *)

Module gles_triangle.

(** [file << "P6\n" << renderImageWidth << "\n" << renderImageHeight << "\n"
         << 255 << "\n";] *)
Definition ppm_header (renderImageWidth renderImageHeight : Z) : list Ascii.ascii :=
  String.list_ascii_of_string
    ("P6" +:+ LF +:+ pretty renderImageWidth +:+ LF +:+
     pretty renderImageHeight +:+ LF +:+ pretty 255 +:+ LF).

(** [file.write((const char* )row, 3); row++;] with [row] a pointer to
    pixels of four bytes: three bytes are copied, the pointer moves by
    four.  [None] when fewer than three bytes are left to read. *)
Definition write_pixel (st : list Ascii.ascii * list Ascii.ascii) : option (list Ascii.ascii * list Ascii.ascii) :=
  let '(file, row) := st in
  if bool_decide (3 <= length row)%nat
  then Some ((file ++ take 3 row)%list, drop 4 row)
  else None.

(** Step 14.4 of [main]: the header, then the two loops over the rows and
    the columns.  [x] and [y] are [uint32_t], so the bounds are the width
    and the height converted to [uint32_t]. *)
Definition write_ppm (renderImageWidth renderImageHeight : Z) (pixels : list Ascii.ascii)
    : option (list Ascii.ascii) :=
  fst <$>
    foldl (fun st y =>
             foldl (fun st x => st ≫= write_pixel) st
                   (seqZ 0 (renderImageWidth `mod` 2 ^ 32)))
          (Some (ppm_header renderImageWidth renderImageHeight, pixels))
          (seqZ 0 (renderImageHeight `mod` 2 ^ 32)).

End gles_triangle.

(** The bytes the two loops append for [n] pixels read from [row]: the
    first three bytes of every group of four. *)
Fixpoint rgb_bytes (n : nat) (row : list Ascii.ascii) : list Ascii.ascii :=
  match n with
  | O => []
  | S n' => take 3 row ++ rgb_bytes n' (drop 4 row)
  end.

(** ** gles_depth_cube.cpp: the state of the pipeline and the frame *)

(** A float constant as the source writes it, and the values [main]
    computes from them with GLM and from the clock; they are passed to the
    driver and never inspected. *)
Inductive FloatLit := Float (literal : string).

Inductive Scalar :=
| glfwGetTime (reading : nat)
| FloatCast (s : Scalar)
| Radians (degrees : FloatLit)
| Times (a b : Scalar).

Inductive Vec3 := vec3 (x y z : FloatLit).

Inductive Mat4 :=
| mat4 (diagonal : FloatLit)
| Rotate (m : Mat4) (angle : Scalar) (axis : Vec3)
| Translate (m : Mat4) (v : Vec3).

Inductive FramebufferTarget := GL_FRAMEBUFFER | GL_DRAW_FRAMEBUFFER | GL_READ_FRAMEBUFFER.
Inductive Capability := GL_DEPTH_TEST | GL_SCISSOR_TEST.
Inductive ClearBit := GL_COLOR_BUFFER_BIT | GL_DEPTH_BUFFER_BIT.
Inductive DrawMode := GL_TRIANGLES | GL_LINES | GL_TRIANGLE_STRIP.
Inductive BlitFilter := GL_NEAREST.
Inductive PipelineError := INVALID_ENUM | INVALID_VALUE | INVALID_OPERATION.

(** The values of the state table of the context, as [glGet] reads them. *)
Inductive Value :=
| Ints (vs : list Z)
| Floats (vs : list FloatLit)
| Flag (b : bool).


(** What the calls of a frame do: the uniforms they set and, for a clear,
    a draw and a blit, the state table they ran in. *)
Inductive Effect :=
| PollEvents
| SwapBuffers
| Clear (mask : list ClearBit) (state : gmap string Value)
| UniformMatrix4fv (program : N) (location : Z) (value : Mat4)
| Uniform3f (program : N) (location : Z) (v0 v1 v2 : FloatLit)
| Uniform1i (program : N) (location : Z) (v0 : Z)
| DrawArrays (mode : DrawMode) (first count : Z) (program : N)
             (state : gmap string Value)
| BlitFramebuffer (srcX0 srcY0 srcX1 srcY1 dstX0 dstY0 dstX1 dstY1 : Z)
                  (mask : list ClearBit) (filter : BlitFilter)
                  (state : gmap string Value).

(** The context beyond its shaders and programs: the framebuffer and
    vertex array names the driver generated, the state table, the texture
    bound to [GL_TEXTURE_2D] in each texture unit, the errors raised and
    what was done. *)
Record Machine := {
  gl : World;
  framebuffer_names : gset N;
  vertex_array_names : gset N;
  table : gmap string Value;
  texture_binding_2d : gmap Z N;
  errors : list PipelineError;
  effects : list Effect
}.

Definition with_gl (w : World) (m : Machine) : Machine :=
  {| gl := w; framebuffer_names := framebuffer_names m;
     vertex_array_names := vertex_array_names m; table := table m;
     texture_binding_2d := texture_binding_2d m; errors := errors m;
     effects := effects m |}.

Definition with_table (t : gmap string Value) (m : Machine) : Machine :=
  {| gl := gl m; framebuffer_names := framebuffer_names m;
     vertex_array_names := vertex_array_names m; table := t;
     texture_binding_2d := texture_binding_2d m; errors := errors m;
     effects := effects m |}.

Definition with_texture_binding_2d (b : gmap Z N) (m : Machine) : Machine :=
  {| gl := gl m; framebuffer_names := framebuffer_names m;
     vertex_array_names := vertex_array_names m; table := table m;
     texture_binding_2d := b; errors := errors m;
     effects := effects m |}.

Definition raise (e : PipelineError) (m : Machine) : Machine :=
  {| gl := gl m; framebuffer_names := framebuffer_names m;
     vertex_array_names := vertex_array_names m; table := table m;
     texture_binding_2d := texture_binding_2d m; errors := errors m ++ [e];
     effects := effects m |}.

Definition effect (e : Effect) (m : Machine) : Machine :=
  {| gl := gl m; framebuffer_names := framebuffer_names m;
     vertex_array_names := vertex_array_names m; table := table m;
     texture_binding_2d := texture_binding_2d m; errors := errors m;
     effects := effects m ++ [e] |}.

Definition set_state (key : string) (v : Value) (m : Machine) : Machine :=
  with_table (<[key := v]> (table m)) m.

(** An entry of integers of a state table; empty when it is not set. *)
Definition ints (t : gmap string Value) (key : string) : list Z :=
  match t !! key with
  | Some (Ints vs) => vs
  | _ => []
  end.

Definition flag (t : gmap string Value) (key : string) : bool :=
  match t !! key with
  | Some (Flag b) => b
  | _ => false
  end.

(** The calls of the frame on that context.  Each follows the rule of
    OpenGL ES 3.0 for the state it sets and the error it raises; a call
    that raises an error changes nothing else. *)

(** [glUseProgram] on the shaders and programs of the context. *)
Definition glUseProgram_of_world : GLuint -> Proc unit := glUseProgram.

Module pipeline.

Definition glfwPollEvents : Machine -> Machine := effect PollEvents.
Definition glfwSwapBuffers : Machine -> Machine := effect SwapBuffers.

(** Only zero and the names [glGenFramebuffers] returned can be bound. *)
Definition glBindFramebuffer (target : FramebufferTarget) (framebuffer : N)
    (m : Machine) : Machine :=
  if bool_decide (framebuffer = 0%N \/ framebuffer ∈ framebuffer_names m)
  then
    let v := Ints [Z.of_N framebuffer] in
    match target with
    | GL_FRAMEBUFFER =>
        set_state "GL_READ_FRAMEBUFFER_BINDING" v
          (set_state "GL_DRAW_FRAMEBUFFER_BINDING" v m)
    | GL_DRAW_FRAMEBUFFER => set_state "GL_DRAW_FRAMEBUFFER_BINDING" v m
    | GL_READ_FRAMEBUFFER => set_state "GL_READ_FRAMEBUFFER_BINDING" v m
    end
  else raise INVALID_OPERATION m.

(** The width and the height are clamped to [GL_MAX_VIEWPORT_DIMS]. *)
Definition glViewport (x y width height : Z) (m : Machine) : Machine :=
  if bool_decide (width < 0 \/ height < 0) then raise INVALID_VALUE m
  else
    match ints (table m) "GL_MAX_VIEWPORT_DIMS" with
    | [max_width; max_height] =>
        set_state "GL_VIEWPORT"
          (Ints [x; y; width `min` max_width; height `min` max_height]) m
    | _ => set_state "GL_VIEWPORT" (Ints [x; y; width; height]) m
    end.

Definition glScissor (x y width height : Z) (m : Machine) : Machine :=
  if bool_decide (width < 0 \/ height < 0) then raise INVALID_VALUE m
  else set_state "GL_SCISSOR_BOX" (Ints [x; y; width; height]) m.

Definition glEnable (cap : Capability) (m : Machine) : Machine :=
  match cap with
  | GL_DEPTH_TEST => set_state "GL_DEPTH_TEST" (Flag true) m
  | GL_SCISSOR_TEST => set_state "GL_SCISSOR_TEST" (Flag true) m
  end.

Definition glClearColor (red green blue alpha : FloatLit) (m : Machine) : Machine :=
  set_state "GL_COLOR_CLEAR_VALUE" (Floats [red; green; blue; alpha]) m.

Definition glClear (mask : list ClearBit) (m : Machine) : Machine :=
  effect (Clear mask (table m)) m.

(** [glUseProgram]: zero means no program; another name goes through the
    check of the link status. *)
Definition glUseProgram (program : N) (m : Machine) : Machine :=
  if bool_decide (program = 0%N)
  then with_gl
         {| gl_next := gl_next (gl m); gl_shaders := gl_shaders (gl m);
            gl_programs := gl_programs (gl m); gl_current := 0%N;
            gl_errors := gl_errors (gl m);
            gl_calls := gl_calls (gl m) ++ [UseProgram 0%N];
            stdout := stdout (gl m) |} m
  else with_gl (snd (glUseProgram_of_world program (gl m))) m.

Definition glBindVertexArray (array : N) (m : Machine) : Machine :=
  if bool_decide (array = 0%N \/ array ∈ vertex_array_names m)
  then set_state "GL_VERTEX_ARRAY_BINDING" (Ints [Z.of_N array]) m
  else raise INVALID_OPERATION m.

(** A uniform is set in the current program; the location -1 is ignored. *)
Definition uniform (e : N -> Effect) (location : Z) (m : Machine) : Machine :=
  if bool_decide (gl_current (gl m) = 0%N) then raise INVALID_OPERATION m
  else if bool_decide (location = -1) then m
  else effect (e (gl_current (gl m))) m.

(** [glUniformMatrix4fv(location, 1, GL_FALSE, value)]. *)
Definition glUniformMatrix4fv (location : Z) (value : Mat4) : Machine -> Machine :=
  uniform (fun program => UniformMatrix4fv program location value) location.

Definition glUniform3f (location : Z) (v0 v1 v2 : FloatLit) : Machine -> Machine :=
  uniform (fun program => Uniform3f program location v0 v1 v2) location.

Definition glUniform1i (location : Z) (v0 : Z) : Machine -> Machine :=
  uniform (fun program => Uniform1i program location v0) location.

Definition glDrawArrays (mode : DrawMode) (first count : Z) (m : Machine) : Machine :=
  if bool_decide (count < 0) then raise INVALID_VALUE m
  else effect (DrawArrays mode first count (gl_current (gl m)) (table m)) m.

Definition glBlitFramebuffer
    (srcX0 srcY0 srcX1 srcY1 dstX0 dstY0 dstX1 dstY1 : Z)
    (mask : list ClearBit) (filter : BlitFilter) (m : Machine) : Machine :=
  effect (BlitFramebuffer srcX0 srcY0 srcX1 srcY1 dstX0 dstY0 dstX1 dstY1
            mask filter (table m)) m.




End pipeline.

Module gles_depth_cube_main.
Import pipeline.

(** The local variables of [main] that the setup left for the loop. *)
Record Locals := {
  display_w : Z;
  display_h : Z;
  cube_program : N;
  texture_program : N;
  cube_vao : N;
  texture_vao : N;
  fboDepthTexture : N;
  fboDepth : N;
  uniformColorLoc : Z;
  modelLoc : Z;
  viewLoc : Z
}.

(** A block of calls, one after the other. *)
Definition block (calls : list (Machine -> Machine)) (m : Machine) : Machine :=
  foldl (fun m call => call m) m calls.


(** The body of the render loop; [reading] numbers the readings of the
    clock. *)
Definition frame (l : Locals) (reading : nat) : Machine -> Machine :=
  block [
    (* X. Poll and handle events (inputs, window resize, etc.) *)
    glfwPollEvents;
    (* X. Draw the cube onto the fboDepth. *)
    glBindFramebuffer GL_FRAMEBUFFER (fboDepth l);
    glViewport 0 0 (display_w l) (display_h l);
    glScissor 0 0 (display_w l) (display_h l);
    glClearColor (Float "0.0") (Float "0.3") (Float "0.3") (Float "1.0f");
    glClear [GL_COLOR_BUFFER_BIT; GL_DEPTH_BUFFER_BIT];
    glUseProgram (cube_program l);
    glBindVertexArray (cube_vao l);
    glUniformMatrix4fv (modelLoc l)
      (Rotate (mat4 (Float "1.0f"))
              (Times (FloatCast (glfwGetTime reading)) (Radians (Float "50.0f")))
              (vec3 (Float "0.5f") (Float "1.0f") (Float "0.0f")));
    glUniformMatrix4fv (viewLoc l)
      (Translate (mat4 (Float "1.0f"))
                 (vec3 (Float ".0f") (Float "0.0f") (Float "-1.5f")));
    glUniform3f (uniformColorLoc l) (Float "0.1") (Float "0.8") (Float "0.9");
    glDrawArrays GL_TRIANGLES 0 36;
    glUniform3f (uniformColorLoc l) (Float "0.0") (Float "0.0") (Float "0.0");
    glDrawArrays GL_LINES 0 36;
    (* D.X. Draw the final image. *)
    glBindFramebuffer GL_DRAW_FRAMEBUFFER 0;
    glBlitFramebuffer 0 0 (display_w l) (display_h l)
                      0 0 (display_w l) (display_h l)
                      [GL_COLOR_BUFFER_BIT] GL_NEAREST;
    glViewport 10 10 300 300;
    glScissor 10 10 300 300;
    glClearColor (Float "0.0") (Float "0.0") (Float "0.0") (Float "1.0f");
    glClear [GL_COLOR_BUFFER_BIT; GL_DEPTH_BUFFER_BIT];
    glUseProgram (texture_program l);
    glBindVertexArray (texture_vao l);
    glDrawArrays GL_TRIANGLE_STRIP 0 4;
    (* X. Swap the front-back buffers. *)
    glfwSwapBuffers ].

(** The render loop when the window is closed after [n] frames. *)
Definition render_loop (l : Locals) (n : nat) (m : Machine) : Machine :=
  foldl (fun m reading => frame l reading m) m (seq 0 n).


(** What the setup guarantees when the loop starts: the names of the
    framebuffer and of the vertex arrays were generated, the two programs
    are linked, the window has a size within the limits of the driver. *)
Definition ready (l : Locals) (m : Machine) : Prop :=
  fboDepth l ∈ framebuffer_names m /\
  cube_vao l ∈ vertex_array_names m /\
  texture_vao l ∈ vertex_array_names m /\
  cube_program l <> 0%N /\ texture_program l <> 0%N /\
  program_linked (gl m) (cube_program l) = true /\
  program_linked (gl m) (texture_program l) = true /\
  (exists max_width max_height,
     table m !! "GL_MAX_VIEWPORT_DIMS" = Some (Ints [max_width; max_height]) /\
     0 <= display_w l <= max_width /\ 0 <= display_h l <= max_height /\
     300 <= max_width /\ 300 <= max_height).

(** The rectangle of the whole window. *)
Definition whole_window (l : Locals) : list Z := [0; 0; display_w l; display_h l].

(** What a clear, a draw or a blit of the frame must have run with: the
    cube pass goes to the framebuffer [fboDepth] over the whole window; the
    blit reads [fboDepth], writes the window and is not cut by the scissor
    box; the quad pass goes to the window within the square of 300 pixels
    at (10, 10); the depth and the scissor test are on throughout. *)
Definition tests_enabled (state : gmap string Value) : Prop :=
  flag state "GL_DEPTH_TEST" = true /\ flag state "GL_SCISSOR_TEST" = true.

Definition cube_pass (l : Locals) (state : gmap string Value) : Prop :=
  tests_enabled state /\
  ints state "GL_DRAW_FRAMEBUFFER_BINDING" = [Z.of_N (fboDepth l)] /\
  ints state "GL_VIEWPORT" = whole_window l /\
  ints state "GL_SCISSOR_BOX" = whole_window l.

Definition quad_pass (state : gmap string Value) : Prop :=
  tests_enabled state /\
  ints state "GL_DRAW_FRAMEBUFFER_BINDING" = [0] /\
  ints state "GL_VIEWPORT" = [10; 10; 300; 300] /\
  ints state "GL_SCISSOR_BOX" = [10; 10; 300; 300].

Definition in_its_pass (l : Locals) (e : Effect) : Prop :=
  match e with
  | DrawArrays GL_TRIANGLES _ _ program state
  | DrawArrays GL_LINES _ _ program state =>
      cube_pass l state /\ program = cube_program l /\
      ints state "GL_VERTEX_ARRAY_BINDING" = [Z.of_N (cube_vao l)]
  | DrawArrays GL_TRIANGLE_STRIP _ _ program state =>
      quad_pass state /\ program = texture_program l /\
      ints state "GL_VERTEX_ARRAY_BINDING" = [Z.of_N (texture_vao l)]
  | Clear _ state =>
      (cube_pass l state /\
       state !! "GL_COLOR_CLEAR_VALUE" =
         Some (Floats [Float "0.0"; Float "0.3"; Float "0.3"; Float "1.0f"])) \/
      (quad_pass state /\
       state !! "GL_COLOR_CLEAR_VALUE" =
         Some (Floats [Float "0.0"; Float "0.0"; Float "0.0"; Float "1.0f"]))
  | BlitFramebuffer sx0 sy0 sx1 sy1 dx0 dy0 dx1 dy1 _ _ state =>
      tests_enabled state /\
      ints state "GL_READ_FRAMEBUFFER_BINDING" = [Z.of_N (fboDepth l)] /\
      ints state "GL_DRAW_FRAMEBUFFER_BINDING" = [0] /\
      ints state "GL_SCISSOR_BOX" = whole_window l /\
      [sx0; sy0; sx1; sy1] = whole_window l /\
      [dx0; dy0; dx1; dy1] = whole_window l
  | UniformMatrix4fv program _ _ | Uniform3f program _ _ _ _ =>
      program = cube_program l
  | Uniform1i _ _ _ => False
  | PollEvents | SwapBuffers => True
  end.

(** The entries of the state table as the last calls of a frame set
    them: the read framebuffer is still [fboDepth], everything else is
    what the quad pass asked for. *)
Definition after_frame (l : Locals) (state : gmap string Value)
    : gmap string Value :=
  <["GL_VERTEX_ARRAY_BINDING" := Ints [Z.of_N (texture_vao l)]]>
 (<["GL_COLOR_CLEAR_VALUE" :=
      Floats [Float "0.0"; Float "0.0"; Float "0.0"; Float "1.0f"]]>
 (<["GL_SCISSOR_BOX" := Ints [10; 10; 300; 300]]>
 (<["GL_VIEWPORT" := Ints [10; 10; 300; 300]]>
 (<["GL_DRAW_FRAMEBUFFER_BINDING" := Ints [0]]>
 (<["GL_READ_FRAMEBUFFER_BINDING" := Ints [Z.of_N (fboDepth l)]]>
    state))))).

(** The calls of a frame that write pixels: a clear, a draw, a blit. *)
Definition writes_pixels (e : Effect) : bool :=
  match e with
  | Clear _ _ | DrawArrays _ _ _ _ _
  | BlitFramebuffer _ _ _ _ _ _ _ _ _ _ _ => true
  | _ => false
  end.

End gles_depth_cube_main.

(** A context as the setup of [main] could leave it: the window of 1024
    by 600 pixels, the two programs linked, one framebuffer and two vertex
    arrays generated, and the limits of a driver. *)
Definition window_1024x600 : gles_depth_cube_main.Locals :=
  {| gles_depth_cube_main.display_w := 1024;
     gles_depth_cube_main.display_h := 600;
     gles_depth_cube_main.cube_program := 3;
     gles_depth_cube_main.texture_program := 6;
     gles_depth_cube_main.cube_vao := 1;
     gles_depth_cube_main.texture_vao := 2;
     gles_depth_cube_main.fboDepthTexture := 1;
     gles_depth_cube_main.fboDepth := 1;
     gles_depth_cube_main.uniformColorLoc := 2;
     gles_depth_cube_main.modelLoc := 0;
     gles_depth_cube_main.viewLoc := 1 |}.

Definition linked_program (vertex fragment : N) : ProgramObj :=
  {| pr_attached := [vertex; fragment]; pr_link_status := true;
     pr_info_log := "" |}.

Definition machine_after_setup : Machine :=
  {| gl := {| gl_next := 7; gl_shaders := ∅;
              gl_programs := <[6%N := linked_program 4 5]>
                               {[3%N := linked_program 1 2]};
              gl_current := 0; gl_errors := []; gl_calls := [];
              stdout := [] |};
     framebuffer_names := {[1%N]};
     vertex_array_names := {[1%N; 2%N]};
     table := <["GL_MAX_COMBINED_TEXTURE_IMAGE_UNITS" := Ints [32]]>
                {["GL_MAX_VIEWPORT_DIMS" := Ints [4096; 4096]]};
     texture_binding_2d := ∅;
     errors := [];
     effects := [] |}.

(** ** Symbolic runs *)

Lemma bind_run {A B} (m : Proc A) (k : A -> Proc B) w a w' :
  m w = (Returned a, w') -> bind m k w = k a w'.
Proof. intros H. unfold bind. now rewrite H. Qed.

Lemma bind_exit {A B} (m : Proc A) (k : A -> Proc B) w st w' :
  m w = (Exited st, w') -> bind m k w = (Exited st, w').
Proof. intros H. unfold bind. now rewrite H. Qed.

Lemma attached_in_program (pr : gmap N ProgramObj) p o s :
  s ∈ pr_attached o ->
  map_Exists (fun _ q => s ∈ pr_attached q) (<[p := o]> pr).
Proof. intros Hs. exists p, o. split; [apply lookup_insert_eq | exact Hs]. Qed.

Ltac call_red :=
  cbv beta iota zeta delta
    [glCreateShader glShaderSource glCompileShader glGetShaderiv glGetShaderInfoLog
     glCreateProgram glAttachShader glLinkProgram glGetProgramiv glGetProgramInfoLog
     glDeleteShader glUseProgram printf exit ret when
     log_call set_shaders set_programs alloc_name raise_error
     gl_next gl_shaders gl_programs gl_current gl_errors gl_calls stdout
     sh_kind sh_source sh_compile_status sh_info_log sh_delete_status
     pr_attached pr_link_status pr_info_log fst snd negb
     omap list_omap compiled_stage flagged_stage rejected_stage].

Ltac call_rw :=
  first
    [ rewrite lookup_insert_eq
    | rewrite lookup_insert_ne by lia
    | rewrite bool_decide_eq_false_2
        by (rewrite ?elem_of_cons, ?elem_of_nil; intuition lia)
    | rewrite bool_decide_eq_true_2
        by (apply attached_in_program; cbn [pr_attached];
            rewrite ?elem_of_cons, ?elem_of_nil; intuition lia)
    | match goal with H : compile_result _ _ _ = _ |- _ => rewrite H end
    | match goal with H : link_result _ _ = _ |- _ =>
        cbv [compiled_stage] in H; rewrite H end ].

Ltac call_tac :=
  call_red; repeat (call_rw; call_red);
  rewrite ?insert_insert_eq, <- ?app_assoc; cbn [app]; reflexivity.

(** Run the next call of the sequence. *)
Ltac step := erewrite bind_run by call_tac.
(** Run the call that ends the process. *)
Ltac stop :=
  erewrite bind_exit
    by (cbv beta iota delta [when negb]; repeat step; reflexivity).

Section Runs.
Variable drv : Driver.
Implicit Types (v f c : string) (w : World).

Lemma createShaderProgram_vertex_failure v f lv w :
  compile_result drv GL_VERTEX_SHADER v = (false, lv) ->
  let vs := gl_next w in
  createShaderProgram drv v f w =
    (Exited (-3),
     {| gl_next := N.succ vs;
        gl_shaders := <[vs := rejected_stage GL_VERTEX_SHADER v lv]> (gl_shaders w);
        gl_programs := gl_programs w;
        gl_current := gl_current w;
        gl_errors := gl_errors w;
        gl_calls := gl_calls w ++
          [CreateShader GL_VERTEX_SHADER vs; ShaderSource vs v; CompileShader vs;
           GetShaderiv vs GL_COMPILE_STATUS false; GetShaderInfoLog vs 512];
        stdout := stdout w ++
          [Printf ("Vertex shader error:" +:+ LF +:+ "%s" +:+ LF)
                  (string_take 511 lv)] |}).
Proof.
  intros Hv vs. subst vs. destruct w as [n sh pr cur errs calls out].
  unfold createShaderProgram. do 4 step. stop. reflexivity.
Qed.

Lemma createShaderProgram_fragment_failure v f lv lf w :
  compile_result drv GL_VERTEX_SHADER v = (true, lv) ->
  compile_result drv GL_FRAGMENT_SHADER f = (false, lf) ->
  let vs := gl_next w in
  let fs := N.succ vs in
  createShaderProgram drv v f w =
    (Exited (-3),
     {| gl_next := N.succ fs;
        gl_shaders :=
          <[fs := rejected_stage GL_FRAGMENT_SHADER f lf]>
            (<[vs := compiled_stage GL_VERTEX_SHADER v lv]> (gl_shaders w));
        gl_programs := gl_programs w;
        gl_current := gl_current w;
        gl_errors := gl_errors w;
        gl_calls := gl_calls w ++
          [CreateShader GL_VERTEX_SHADER vs; ShaderSource vs v; CompileShader vs;
           GetShaderiv vs GL_COMPILE_STATUS true;
           CreateShader GL_FRAGMENT_SHADER fs; ShaderSource fs f; CompileShader fs;
           GetShaderiv fs GL_COMPILE_STATUS false; GetShaderInfoLog fs 512];
        stdout := stdout w ++
          [Printf ("Fragment shader error:" +:+ LF +:+ "%s" +:+ LF)
                  (string_take 511 lf)] |}).
Proof.
  intros Hv Hf vs fs. subst vs fs. destruct w as [n sh pr cur errs calls out].
  unfold createShaderProgram. do 9 step. stop. reflexivity.
Qed.

Lemma createShaderProgram_link_failure v f lv lf ll w :
  compile_result drv GL_VERTEX_SHADER v = (true, lv) ->
  compile_result drv GL_FRAGMENT_SHADER f = (true, lf) ->
  link_result drv [compiled_stage GL_VERTEX_SHADER v lv;
                   compiled_stage GL_FRAGMENT_SHADER f lf] = (false, ll) ->
  let vs := gl_next w in
  let fs := N.succ vs in
  let p := N.succ fs in
  createShaderProgram drv v f w =
    (Exited (-3),
     {| gl_next := N.succ p;
        gl_shaders :=
          <[fs := compiled_stage GL_FRAGMENT_SHADER f lf]>
            (<[vs := compiled_stage GL_VERTEX_SHADER v lv]> (gl_shaders w));
        gl_programs :=
          <[p := {| pr_attached := [vs; fs]; pr_link_status := false;
                    pr_info_log := ll |}]> (gl_programs w);
        gl_current := gl_current w;
        gl_errors := gl_errors w;
        gl_calls := gl_calls w ++
          [CreateShader GL_VERTEX_SHADER vs; ShaderSource vs v; CompileShader vs;
           GetShaderiv vs GL_COMPILE_STATUS true;
           CreateShader GL_FRAGMENT_SHADER fs; ShaderSource fs f; CompileShader fs;
           GetShaderiv fs GL_COMPILE_STATUS true;
           CreateProgram p; AttachShader p vs; AttachShader p fs; LinkProgram p;
           GetProgramiv p GL_LINK_STATUS false; GetProgramInfoLog p 512];
        stdout := stdout w ++
          [Printf ("Program error:" +:+ LF +:+ "%s" +:+ LF) (string_take 511 ll)] |}).
Proof.
  intros Hv Hf Hl vs fs p. subst vs fs p. destruct w as [n sh pr cur errs calls out].
  unfold createShaderProgram. do 15 step. stop. reflexivity.
Qed.

Lemma createShaderProgram_success v f lv lf ll w :
  compile_result drv GL_VERTEX_SHADER v = (true, lv) ->
  compile_result drv GL_FRAGMENT_SHADER f = (true, lf) ->
  link_result drv [compiled_stage GL_VERTEX_SHADER v lv;
                   compiled_stage GL_FRAGMENT_SHADER f lf] = (true, ll) ->
  let vs := gl_next w in
  let fs := N.succ vs in
  let p := N.succ fs in
  createShaderProgram drv v f w =
    (Returned p,
     {| gl_next := N.succ p;
        gl_shaders :=
          <[fs := flagged_stage GL_FRAGMENT_SHADER f lf]>
            (<[vs := flagged_stage GL_VERTEX_SHADER v lv]> (gl_shaders w));
        gl_programs :=
          <[p := {| pr_attached := [vs; fs]; pr_link_status := true;
                    pr_info_log := ll |}]> (gl_programs w);
        gl_current := gl_current w;
        gl_errors := gl_errors w;
        gl_calls := gl_calls w ++
          [CreateShader GL_VERTEX_SHADER vs; ShaderSource vs v; CompileShader vs;
           GetShaderiv vs GL_COMPILE_STATUS true;
           CreateShader GL_FRAGMENT_SHADER fs; ShaderSource fs f; CompileShader fs;
           GetShaderiv fs GL_COMPILE_STATUS true;
           CreateProgram p; AttachShader p vs; AttachShader p fs; LinkProgram p;
           GetProgramiv p GL_LINK_STATUS true;
           DeleteShader vs; DeleteShader fs];
        stdout := stdout w |}).
Proof.
  intros Hv Hf Hl vs fs p. subst vs fs p. destruct w as [n sh pr cur errs calls out].
  unfold createShaderProgram. do 16 step.
  do 2 step.
  cbv [ret gl_next gl_shaders]. do 2 f_equal.
  assert (n ≠ N.succ n) by lia.
  apply map_eq; intros i.
  destruct (decide (i = n)), (decide (i = N.succ n)); by simplify_map_eq.
Qed.

Lemma main_steps_6_9_eq v f :
  gles_cube.main_steps_6_9 drv v f = createShaderProgram drv v f.
Proof. reflexivity. Qed.

Lemma main_shader_steps_compile_failure c lc w :
  compile_result drv GL_COMPUTE_SHADER c = (false, lc) ->
  let cs := gl_next w in
  gles_compute_pure.main_shader_steps drv c w =
    (Exited (-3),
     {| gl_next := N.succ cs;
        gl_shaders := <[cs := rejected_stage GL_COMPUTE_SHADER c lc]> (gl_shaders w);
        gl_programs := gl_programs w;
        gl_current := gl_current w;
        gl_errors := gl_errors w;
        gl_calls := gl_calls w ++
          [CreateShader GL_COMPUTE_SHADER cs; ShaderSource cs c; CompileShader cs;
           GetShaderiv cs GL_COMPILE_STATUS false; GetShaderInfoLog cs 512];
        stdout := stdout w ++
          [Printf ("Compute shader error:" +:+ LF +:+ "%s" +:+ LF)
                  (string_take 511 lc)] |}).
Proof.
  intros Hc cs. subst cs. destruct w as [n sh pr cur errs calls out].
  unfold gles_compute_pure.main_shader_steps. do 4 step. stop. reflexivity.
Qed.

Lemma main_shader_steps_link_failure c lc ll w :
  compile_result drv GL_COMPUTE_SHADER c = (true, lc) ->
  link_result drv [compiled_stage GL_COMPUTE_SHADER c lc] = (false, ll) ->
  let cs := gl_next w in
  let p := N.succ cs in
  gles_compute_pure.main_shader_steps drv c w =
    (Exited (-3),
     {| gl_next := N.succ p;
        gl_shaders := <[cs := compiled_stage GL_COMPUTE_SHADER c lc]> (gl_shaders w);
        gl_programs :=
          <[p := {| pr_attached := [cs]; pr_link_status := false;
                    pr_info_log := ll |}]> (gl_programs w);
        gl_current := gl_current w;
        gl_errors := gl_errors w;
        gl_calls := gl_calls w ++
          [CreateShader GL_COMPUTE_SHADER cs; ShaderSource cs c; CompileShader cs;
           GetShaderiv cs GL_COMPILE_STATUS true;
           CreateProgram p; AttachShader p cs; LinkProgram p;
           GetProgramiv p GL_LINK_STATUS false; GetProgramInfoLog p 512];
        stdout := stdout w ++
          [Printf ("Program error:" +:+ LF +:+ "%s" +:+ LF) (string_take 511 ll)] |}).
Proof.
  intros Hc Hl cs p. subst cs p. destruct w as [n sh pr cur errs calls out].
  unfold gles_compute_pure.main_shader_steps. do 9 step. stop. reflexivity.
Qed.

Lemma main_shader_steps_success c lc ll w :
  compile_result drv GL_COMPUTE_SHADER c = (true, lc) ->
  link_result drv [compiled_stage GL_COMPUTE_SHADER c lc] = (true, ll) ->
  let cs := gl_next w in
  let p := N.succ cs in
  gles_compute_pure.main_shader_steps drv c w =
    (Returned p,
     {| gl_next := N.succ p;
        gl_shaders := <[cs := flagged_stage GL_COMPUTE_SHADER c lc]> (gl_shaders w);
        gl_programs :=
          <[p := {| pr_attached := [cs]; pr_link_status := true;
                    pr_info_log := ll |}]> (gl_programs w);
        gl_current := gl_current w;
        gl_errors := gl_errors w;
        gl_calls := gl_calls w ++
          [CreateShader GL_COMPUTE_SHADER cs; ShaderSource cs c; CompileShader cs;
           GetShaderiv cs GL_COMPILE_STATUS true;
           CreateProgram p; AttachShader p cs; LinkProgram p;
           GetProgramiv p GL_LINK_STATUS true; DeleteShader cs];
        stdout := stdout w |}).
Proof.
  intros Hc Hl cs p. subst cs p. destruct w as [n sh pr cur errs calls out].
  unfold gles_compute_pure.main_shader_steps. do 11 step. reflexivity.
Qed.

End Runs.

(** ** Facts on strings and on the history of a run *)

Lemma string_take_length n s : (String.length (string_take n s) <= n)%nat.
Proof.
  revert s. induction n as [|n IH]; intros [|a s]; cbn; try lia.
  specialize (IH s). lia.
Qed.

Lemma string_take_all n s : (String.length s <= n)%nat -> string_take n s = s.
Proof.
  revert s. induction n as [|n IH]; intros [|a s]; cbn; intros Hlen;
    try reflexivity; try lia.
  f_equal. apply IH. lia.
Qed.

Lemma string_take_prefix n s : exists rest, s = string_take n s +:+ rest.
Proof.
  revert s. induction n as [|n IH]; intros s.
  - exists s. reflexivity.
  - destruct s as [|a s]; [exists ""; reflexivity|].
    destruct (IH s) as [rest Hrest]. exists rest.
    change (String a s = String a (string_take n s +:+ rest)). now f_equal.
Qed.

Lemma string_take_empty_iff n s : string_take (S n) s = "" <-> s = "".
Proof. destruct s; cbn; split; congruence. Qed.

Lemma calls_since_app w w' (l : list GLCall) :
  gl_calls w' = (gl_calls w ++ l)%list -> calls_since w w' = l.
Proof. intros H. unfold calls_since. rewrite H. apply drop_app_length. Qed.

Lemma printed_since_app w w' (l : list Output) :
  stdout w' = (stdout w ++ l)%list -> printed_since w w' = l.
Proof. intros H. unfold printed_since. rewrite H. apply drop_app_length. Qed.

Lemma printed_since_same w w' : stdout w' = stdout w -> printed_since w w' = [].
Proof. intros H. unfold printed_since. rewrite H. apply drop_all. Qed.

(** Split a run of the vertex and fragment pipeline into its four paths
    and replace the run by the world it ends in. *)
Ltac run_paths drv v f :=
  let lv := fresh "lv" in let lf := fresh "lf" in let ll := fresh "ll" in
  let Hv := fresh "Hv" in let Hf := fresh "Hf" in let Hl := fresh "Hl" in
  destruct (compile_result drv GL_VERTEX_SHADER v) as [[|] lv] eqn:Hv;
  [ destruct (compile_result drv GL_FRAGMENT_SHADER f) as [[|] lf] eqn:Hf;
    [ destruct (link_result drv [compiled_stage GL_VERTEX_SHADER v lv;
                                 compiled_stage GL_FRAGMENT_SHADER f lf])
        as [[|] ll] eqn:Hl;
      [ rewrite (createShaderProgram_success drv v f lv lf ll) by assumption
      | rewrite (createShaderProgram_link_failure drv v f lv lf ll) by assumption ]
    | rewrite (createShaderProgram_fragment_failure drv v f lv lf) by assumption ]
  | rewrite (createShaderProgram_vertex_failure drv v f lv) by assumption ].

(** The same for the compute pipeline and its three paths. *)
Ltac run_paths_compute drv c :=
  let lc := fresh "lc" in let ll := fresh "ll" in
  let Hc := fresh "Hc" in let Hl := fresh "Hl" in
  destruct (compile_result drv GL_COMPUTE_SHADER c) as [[|] lc] eqn:Hc;
  [ destruct (link_result drv [compiled_stage GL_COMPUTE_SHADER c lc])
      as [[|] ll] eqn:Hl;
    [ rewrite (main_shader_steps_success drv c lc ll) by assumption
    | rewrite (main_shader_steps_link_failure drv c lc ll) by assumption ]
  | rewrite (main_shader_steps_compile_failure drv c lc) by assumption ].

(** The history and the output of the world a run ended in. *)
Ltac since :=
  repeat first
    [ erewrite calls_since_app by (cbn [gl_calls]; reflexivity)
    | erewrite printed_since_app by (cbn [stdout]; reflexivity)
    | erewrite printed_since_same by (cbn [stdout]; reflexivity) ].

(** ** The release of the stages *)

Lemma stages_released_on_success_only_run drv v f w :
  stages_released_on_success_only w (createShaderProgram drv v f w).
Proof.
  assert (gl_next w ≠ N.succ (gl_next w)) by lia.
  run_paths drv v f; cbv zeta; unfold stages_released_on_success_only; since;
    cbn [created_shaders omap list_omap existsb is_delete orb];
    repeat split; repeat constructor;
    unfold shader_released; cbn [gl_shaders]; by simplify_map_eq.
Qed.

(** C1, amended: on the path that returns the program every stage the run
    created is released; on every path that ends the process (a compile
    failure, a link failure) the status is -3, [glDeleteShader] is never
    called and every stage created so far is still unreleased. *)
Theorem stage_release_on_success_only drv v f w :
  stages_released_on_success_only w (createShaderProgram drv v f w) /\
  stages_released_on_success_only w (gles_cube.main_steps_6_9 drv v f w).
Proof.
  split; exact (stages_released_on_success_only_run drv v f w).
Qed.

(** C1 as worded fails on a link failure: the link was attempted and both
    stages are still unreleased when the process ends. *)
Lemma link_failure_leaves_stages_unreleased :
  ~ stages_released_after_link fresh_context
      (createShaderProgram (link_rejecting_driver "error: varying mismatch")
         "v" "f" fresh_context).
Proof.
  unfold stages_released_after_link. intros H.
  assert (Hlink : existsb is_link
            (calls_since fresh_context
               (snd (createShaderProgram
                       (link_rejecting_driver "error: varying mismatch")
                       "v" "f" fresh_context))) = true) by (vm_compute; reflexivity).
  specialize (H Hlink). apply Forall_inv in H. vm_compute in H. discriminate H.
Qed.

(** ** The short circuit on a compile failure *)

(** C2, amended: when the driver rejects the vertex shader, both builders
    end the process with status -3 after printing the vertex report with
    the first 511 characters of the driver's log, which is empty only when
    the driver's log is; the only shader created and compiled is the vertex
    shader, and no program is created, attached to or linked. *)
Theorem vertex_failure_short_circuit drv v f lv w :
  compile_result drv GL_VERTEX_SHADER v = (false, lv) ->
  exists w',
    createShaderProgram drv v f w = (Exited (-3), w') /\
    gles_cube.main_steps_6_9 drv v f w = (Exited (-3), w') /\
    printed_since w w' =
      [Printf (error_format VertexCompile) (string_take 511 lv)] /\
    (string_take 511 lv = "" <-> lv = "") /\
    calls_since w w' =
      [CreateShader GL_VERTEX_SHADER (gl_next w); ShaderSource (gl_next w) v;
       CompileShader (gl_next w);
       GetShaderiv (gl_next w) GL_COMPILE_STATUS false;
       GetShaderInfoLog (gl_next w) 512] /\
    created_kinds (calls_since w w') = [GL_VERTEX_SHADER] /\
    filter is_compile (calls_since w w') = [CompileShader (gl_next w)] /\
    existsb is_link (calls_since w w') = false.
Proof.
  intros Hv.
  pose proof (createShaderProgram_vertex_failure drv v f lv w Hv) as Hrun.
  cbv zeta in Hrun. eexists. split; [exact Hrun|]. split; [exact Hrun|].
  since. split; [reflexivity|]. split; [apply string_take_empty_iff|].
  repeat split.
Qed.

Lemma vertex_failure_short_circuit_witness :
  exists w',
    createShaderProgram (vertex_rejecting_driver "0:1: syntax error")
      "void main( {" "void main() {}" fresh_context = (Exited (-3), w') /\
    printed_since fresh_context w' =
      [Printf (error_format VertexCompile) "0:1: syntax error"] /\
    existsb is_link (calls_since fresh_context w') = false.
Proof.
  destruct (vertex_failure_short_circuit
              (vertex_rejecting_driver "0:1: syntax error")
              "void main( {" "void main() {}" "0:1: syntax error" fresh_context)
    as (w' & Hrun & _ & Hout & _ & _ & _ & _ & Hlink); [reflexivity|].
  exists w'. split; [exact Hrun|]. split; [exact Hout|exact Hlink].
Defined.

(** C2 as worded fails when the driver rejects the vertex shader with an
    empty info log: the diagnostic that is printed is empty. *)
Lemma vertex_failure_with_empty_log :
  ~ vertex_failure_carries_nonempty_log
      (vertex_rejecting_driver "") "void main( {" "void main() {}" fresh_context.
Proof.
  intros H. destruct H as (info & w' & Hrun & Hout & Hinfo & _); [reflexivity|].
  rewrite (createShaderProgram_vertex_failure _ _ _ "") in Hrun by reflexivity.
  cbv zeta in Hrun. injection Hrun as <-.
  erewrite printed_since_app in Hout by (cbn [stdout]; reflexivity).
  injection Hout as Hout. apply Hinfo. symmetry. exact Hout.
Qed.

(** ** The report of a link failure *)

(** C3: when the driver accepts both shaders and rejects the program, both
    builders end the process after printing the program report with the
    linker's log (its first 511 characters, the whole log when it is not
    longer); both shaders were compiled, and their status queried, before the
    program was linked, and both shader objects hold a success status. *)
Theorem link_failure_reported drv v f lv lf ll w :
  compile_result drv GL_VERTEX_SHADER v = (true, lv) ->
  compile_result drv GL_FRAGMENT_SHADER f = (true, lf) ->
  link_result drv [compiled_stage GL_VERTEX_SHADER v lv;
                   compiled_stage GL_FRAGMENT_SHADER f lf] = (false, ll) ->
  let vs := gl_next w in
  let fs := N.succ vs in
  let p := N.succ fs in
  exists w',
    createShaderProgram drv v f w = (Exited (-3), w') /\
    gles_cube.main_steps_6_9 drv v f w = (Exited (-3), w') /\
    printed_since w w' = [Printf (error_format Link) (string_take 511 ll)] /\
    ((String.length ll <= 511)%nat -> string_take 511 ll = ll) /\
    calls_since w w' =
      [CreateShader GL_VERTEX_SHADER vs; ShaderSource vs v; CompileShader vs;
       GetShaderiv vs GL_COMPILE_STATUS true;
       CreateShader GL_FRAGMENT_SHADER fs; ShaderSource fs f; CompileShader fs;
       GetShaderiv fs GL_COMPILE_STATUS true;
       CreateProgram p; AttachShader p vs; AttachShader p fs; LinkProgram p;
       GetProgramiv p GL_LINK_STATUS false; GetProgramInfoLog p 512] /\
    gl_shaders w' !! vs = Some (compiled_stage GL_VERTEX_SHADER v lv) /\
    gl_shaders w' !! fs = Some (compiled_stage GL_FRAGMENT_SHADER f lf) /\
    program_linked w' p = false.
Proof.
  intros Hv Hf Hl vs fs p.
  pose proof (createShaderProgram_link_failure drv v f lv lf ll w Hv Hf Hl) as Hrun.
  cbv zeta in Hrun. fold vs fs p in Hrun.
  assert (vs ≠ fs) by (subst vs fs; lia).
  eexists. split; [exact Hrun|]. split; [exact Hrun|]. since.
  split; [reflexivity|]. split; [apply string_take_all|].
  split; [reflexivity|].
  unfold program_linked. cbn [gl_shaders gl_programs].
  repeat split; by simplify_map_eq.
Qed.

Lemma link_failure_reported_witness :
  exists w',
    createShaderProgram (link_rejecting_driver "error: varying mismatch")
      "out vec2 a;" "in vec3 a;" fresh_context = (Exited (-3), w') /\
    printed_since fresh_context w' =
      [Printf (error_format Link) "error: varying mismatch"].
Proof.
  destruct (link_failure_reported
              (link_rejecting_driver "error: varying mismatch")
              "out vec2 a;" "in vec3 a;"
              "warning: unused variable" "warning: unused variable"
              "error: varying mismatch" fresh_context)
    as (w' & Hrun & _ & Hout & _); [reflexivity | reflexivity | reflexivity |].
  exists w'. split; [exact Hrun | exact Hout].
Defined.

(** ** Who ends the process *)

(** The run of the vertex and fragment pipeline after the answers of the
    driver: the process ends with status -3 after one report on the first
    phase the driver rejects, or the program is returned and nothing is
    printed. *)
Lemma createShaderProgram_first_failure drv v f w :
  match first_failure drv v f with
  | Some (ph, log) =>
      exists w',
        createShaderProgram drv v f w = (Exited (-3), w') /\
        printed_since w w' = [Printf (error_format ph) (string_take 511 log)]
  | None =>
      exists w',
        createShaderProgram drv v f w = (Returned (N.succ (N.succ (gl_next w))), w') /\
        printed_since w w' = []
  end.
Proof.
  unfold first_failure.
  run_paths drv v f; cbn [fst snd negb]; rewrite ?Hl; cbn [fst snd negb];
    cbv zeta; eexists; (split; [reflexivity|]); since; reflexivity.
Qed.

Lemma main_shader_steps_first_failure drv c w :
  match first_failure_compute drv c with
  | Some (ph, log) =>
      exists w',
        gles_compute_pure.main_shader_steps drv c w = (Exited (-3), w') /\
        printed_since w w' = [Printf (error_format ph) (string_take 511 log)]
  | None =>
      exists w',
        gles_compute_pure.main_shader_steps drv c w =
          (Returned (N.succ (gl_next w)), w') /\
        printed_since w w' = []
  end.
Proof.
  unfold first_failure_compute.
  run_paths_compute drv c; cbn [fst snd negb]; rewrite ?Hl; cbn [fst snd negb];
    cbv zeta; eexists; (split; [reflexivity|]); since; reflexivity.
Qed.

(** C4, amended: when the driver rejects a phase, the builder itself prints
    the report and ends the process with status -3; whatever the caller
    would do with the result, it is not run.  So step 6 of [main] of
    gles_depth_cube ends there when its first build fails, whatever the
    sources of its second build. *)
Theorem failure_ends_process_in_builder
    drv v f w ph log (B : Type) (caller : GLuint -> Proc B) :
  first_failure drv v f = Some (ph, log) ->
  exists w',
    createShaderProgram drv v f w = (Exited (-3), w') /\
    gles_cube.main_steps_6_9 drv v f w = (Exited (-3), w') /\
    printed_since w w' = [Printf (error_format ph) (string_take 511 log)] /\
    bind (createShaderProgram drv v f) caller w = (Exited (-3), w') /\
    forall v2 f2, main_step_6 drv v f v2 f2 w = (Exited (-3), w').
Proof.
  intros Hff. pose proof (createShaderProgram_first_failure drv v f w) as H.
  rewrite Hff in H. destruct H as (w' & Hrun & Hout).
  exists w'. repeat split; try assumption.
  - unfold bind. now rewrite Hrun.
  - intros v2 f2. unfold main_step_6. now erewrite bind_exit by exact Hrun.
Qed.

Lemma failure_ends_process_in_builder_witness :
  exists w',
    bind (createShaderProgram (fragment_rejecting_driver "0:3: undeclared identifier")
            "void main() {}" "void main() { x; }")
         (fun program => glUseProgram program) fresh_context = (Exited (-3), w').
Proof.
  destruct (failure_ends_process_in_builder
              (fragment_rejecting_driver "0:3: undeclared identifier")
              "void main() {}" "void main() { x; }" fresh_context
              FragmentCompile "0:3: undeclared identifier" unit
              (fun program => glUseProgram program))
    as (w' & _ & _ & _ & Hcaller & _); [reflexivity|].
  exists w'. exact Hcaller.
Defined.

(** C4 as worded fails: when the driver rejects the vertex shader, no
    caller of [createShaderProgram] goes on. *)
Lemma no_caller_survives_a_failure :
  ~ failure_left_to_caller (vertex_rejecting_driver "0:1: syntax error")
      "void main( {" "void main() {}" fresh_context.
Proof.
  intros H. destruct H as (caller & w' & Hrun); [eexists; reflexivity|].
  unfold bind in Hrun.
  rewrite (createShaderProgram_vertex_failure _ _ _ "0:1: syntax error")
    in Hrun by reflexivity.
  discriminate Hrun.
Qed.

(** ** The successful build *)

(** C5: when the driver accepts both shaders and the program, both builders
    return the program after exactly this sequence of calls: each shader is
    created, given its source, compiled and queried; the program is created,
    both shaders are attached, the program is linked and queried; then both
    shaders are deleted.  In the world the builder returns in, both shader
    handles are released, the program object still holds both shaders and
    its link status, and [glUseProgram] makes it current without an error. *)
Theorem successful_build_lifecycle drv v f lv lf ll w :
  compile_result drv GL_VERTEX_SHADER v = (true, lv) ->
  compile_result drv GL_FRAGMENT_SHADER f = (true, lf) ->
  link_result drv [compiled_stage GL_VERTEX_SHADER v lv;
                   compiled_stage GL_FRAGMENT_SHADER f lf] = (true, ll) ->
  let vs := gl_next w in
  let fs := N.succ vs in
  let p := N.succ fs in
  exists w',
    createShaderProgram drv v f w = (Returned p, w') /\
    gles_cube.main_steps_6_9 drv v f w = (Returned p, w') /\
    calls_since w w' =
      [CreateShader GL_VERTEX_SHADER vs; ShaderSource vs v; CompileShader vs;
       GetShaderiv vs GL_COMPILE_STATUS true;
       CreateShader GL_FRAGMENT_SHADER fs; ShaderSource fs f; CompileShader fs;
       GetShaderiv fs GL_COMPILE_STATUS true;
       CreateProgram p; AttachShader p vs; AttachShader p fs; LinkProgram p;
       GetProgramiv p GL_LINK_STATUS true;
       DeleteShader vs; DeleteShader fs] /\
    shader_released w' vs = true /\
    shader_released w' fs = true /\
    gl_programs w' !! p =
      Some {| pr_attached := [vs; fs]; pr_link_status := true;
              pr_info_log := ll |} /\
    program_linked w' p = true /\
    exists w'',
      glUseProgram p w' = (Returned tt, w'') /\
      gl_current w'' = p /\
      gl_errors w'' = gl_errors w.
Proof.
  intros Hv Hf Hl vs fs p.
  pose proof (createShaderProgram_success drv v f lv lf ll w Hv Hf Hl) as Hrun.
  cbv zeta in Hrun. fold vs fs p in Hrun.
  assert (vs ≠ fs) by (subst vs fs; lia).
  eexists. split; [exact Hrun|]. split; [exact Hrun|]. since.
  split; [reflexivity|].
  unfold shader_released, program_linked, glUseProgram.
  cbn [gl_shaders gl_programs log_call].
  repeat split; try by simplify_map_eq.
  rewrite lookup_insert_eq. cbn [pr_link_status]. eexists. repeat split.
Qed.

Lemma successful_build_lifecycle_witness :
  exists w',
    createShaderProgram accepting_driver "void main() {}" "void main() {}"
      fresh_context = (Returned 3%N, w') /\
    program_linked w' 3 = true /\
    shader_released w' 1 = true /\
    shader_released w' 2 = true.
Proof.
  destruct (successful_build_lifecycle accepting_driver
              "void main() {}" "void main() {}" "" "" "" fresh_context)
    as (w' & Hrun & _ & _ & Hvs & Hfs & _ & Hp & _);
    [reflexivity | reflexivity | reflexivity |].
  exists w'. repeat split; assumption.
Defined.

(** C6: when the driver accepts the compute shader and the program made of
    it alone, the compute example returns a linked program; the only shader
    object it created is the compute shader, and it is the only shader
    attached to the program. *)
Theorem compute_only_build drv c lc ll w :
  compile_result drv GL_COMPUTE_SHADER c = (true, lc) ->
  link_result drv [compiled_stage GL_COMPUTE_SHADER c lc] = (true, ll) ->
  let cs := gl_next w in
  let p := N.succ cs in
  exists w',
    gles_compute_pure.main_shader_steps drv c w = (Returned p, w') /\
    program_linked w' p = true /\
    created_kinds (calls_since w w') = [GL_COMPUTE_SHADER] /\
    created_shaders (calls_since w w') = [cs] /\
    gl_programs w' !! p =
      Some {| pr_attached := [cs]; pr_link_status := true; pr_info_log := ll |} /\
    shader_released w' cs = true /\
    printed_since w w' = [].
Proof.
  intros Hc Hl cs p.
  pose proof (main_shader_steps_success drv c lc ll w Hc Hl) as Hrun.
  cbv zeta in Hrun. fold cs p in Hrun.
  eexists. split; [exact Hrun|]. since.
  unfold shader_released, program_linked. cbn [gl_shaders gl_programs].
  repeat split; by simplify_map_eq.
Qed.

Lemma compute_only_build_witness :
  exists w',
    gles_compute_pure.main_shader_steps accepting_driver
      "layout (local_size_x = 1) in; void main() {}" fresh_context
      = (Returned 2%N, w') /\
    program_linked w' 2 = true /\
    created_kinds (calls_since fresh_context w') = [GL_COMPUTE_SHADER].
Proof.
  destruct (compute_only_build accepting_driver
              "layout (local_size_x = 1) in; void main() {}" "" "" fresh_context)
    as (w' & Hrun & Hp & Hk & _); [reflexivity | reflexivity |].
  exists w'. repeat split; assumption.
Defined.

(** ** The diagnostic of a failure *)

(** C7, amended: when the driver rejects a phase, the report that is printed
    carries the info log read from the driver through a buffer of 512
    bytes: its first 511 characters, nothing else, the whole log when it is
    not longer, and an empty text exactly when the driver's log is empty. *)
Theorem failure_log_is_driver_log drv v f w ph log :
  first_failure drv v f = Some (ph, log) ->
  exists w' info,
    createShaderProgram drv v f w = (Exited (-3), w') /\
    gles_cube.main_steps_6_9 drv v f w = (Exited (-3), w') /\
    printed_since w w' = [Printf (error_format ph) info] /\
    info = string_take 511 log /\
    (String.length info <= 511)%nat /\
    (exists rest, log = info +:+ rest) /\
    (info = "" <-> log = "") /\
    ((String.length log <= 511)%nat -> info = log).
Proof.
  intros Hff. pose proof (createShaderProgram_first_failure drv v f w) as H.
  rewrite Hff in H. destruct H as (w' & Hrun & Hout).
  exists w', (string_take 511 log).
  split; [exact Hrun|]. split; [exact Hrun|]. split; [exact Hout|].
  split; [reflexivity|]. split; [apply string_take_length|].
  split; [apply string_take_prefix|]. split; [apply string_take_empty_iff|].
  apply string_take_all.
Qed.

Lemma failure_log_is_driver_log_witness :
  exists w',
    createShaderProgram (fragment_rejecting_driver "0:3: undeclared identifier")
      "void main() {}" "void main() { x; }" fresh_context = (Exited (-3), w') /\
    printed_since fresh_context w' =
      [Printf (error_format FragmentCompile) "0:3: undeclared identifier"].
Proof.
  destruct (failure_log_is_driver_log
              (fragment_rejecting_driver "0:3: undeclared identifier")
              "void main() {}" "void main() { x; }" fresh_context
              FragmentCompile "0:3: undeclared identifier")
    as (w' & info & Hrun & _ & Hout & -> & _); [reflexivity|].
  exists w'. split; [exact Hrun | exact Hout].
Defined.

(** C7 as worded fails when the linker rejects the program with an empty
    info log: the diagnostic attached to the failure is empty. *)
Lemma link_failure_with_empty_log :
  ~ failure_log_attached_nonempty (link_rejecting_driver "")
      "out vec2 a;" "in vec3 a;" fresh_context.
Proof.
  intros H.
  destruct H as (format & info & w' & Hrun & Hout & _ & Hinfo);
    [eexists; reflexivity|].
  rewrite (createShaderProgram_link_failure _ _ _
             "warning: unused variable" "warning: unused variable" "")
    in Hrun by reflexivity.
  cbv zeta in Hrun. injection Hrun as <-.
  erewrite printed_since_app in Hout by (cbn [stdout]; reflexivity).
  injection Hout as _ Hout. apply Hinfo. symmetry. exact Hout.
Qed.

(** ** Two builds in a row *)

(** C8: when the driver accepts the sources, two calls of
    [createShaderProgram] in a row on the same sources, as step 6 of [main]
    makes them, return two different program names; both programs are
    linked in the final world and the second build leaves the first program
    as it was.  The second call is built as the first one was, and so is a
    call from any other world: the verdict does not depend on what was
    built before. *)
Theorem build_twice_independent drv v f lv lf ll w :
  compile_result drv GL_VERTEX_SHADER v = (true, lv) ->
  compile_result drv GL_FRAGMENT_SHADER f = (true, lf) ->
  link_result drv [compiled_stage GL_VERTEX_SHADER v lv;
                   compiled_stage GL_FRAGMENT_SHADER f lf] = (true, ll) ->
  exists p1 w1 p2 w2,
    createShaderProgram drv v f w = (Returned p1, w1) /\
    createShaderProgram drv v f w1 = (Returned p2, w2) /\
    main_step_6 drv v f v f w = (Returned (p1, p2), w2) /\
    p1 <> p2 /\
    program_linked w2 p1 = true /\
    program_linked w2 p2 = true /\
    gl_programs w2 !! p1 = gl_programs w1 !! p1 /\
    verdict w1 (createShaderProgram drv v f w1) =
      verdict w (createShaderProgram drv v f w) /\
    forall w0, verdict w0 (createShaderProgram drv v f w0) = Built.
Proof.
  intros Hv Hf Hl.
  pose proof (createShaderProgram_success drv v f lv lf ll w Hv Hf Hl) as Hrun1.
  cbv zeta in Hrun1.
  match type of Hrun1 with _ = (_, ?w1) =>
    pose proof (createShaderProgram_success drv v f lv lf ll w1 Hv Hf Hl) as Hrun2
  end.
  cbv zeta in Hrun2. cbn [gl_next gl_shaders gl_programs gl_current gl_errors
                          gl_calls stdout] in Hrun2.
  assert (Hbuilt : forall w0, verdict w0 (createShaderProgram drv v f w0) = Built).
  { intros w0.
    rewrite (createShaderProgram_success drv v f lv lf ll w0 Hv Hf Hl).
    reflexivity. }
  do 4 eexists.
  split; [exact Hrun1|]. split; [exact Hrun2|].
  split.
  { unfold main_step_6. erewrite bind_run by exact Hrun1.
    erewrite bind_run by exact Hrun2. reflexivity. }
  split; [lia|].
  unfold program_linked. cbn [gl_programs].
  split; [now rewrite lookup_insert_ne, lookup_insert_eq by lia|].
  split; [now rewrite lookup_insert_eq|].
  split; [now rewrite lookup_insert_ne by lia|].
  split; [|exact Hbuilt].
  now rewrite !Hbuilt.
Qed.

Lemma build_twice_independent_witness :
  exists p1 p2 w2,
    main_step_6 accepting_driver "void main() {}" "void main() {}"
      "void main() {}" "void main() {}" fresh_context
      = (Returned (p1, p2), w2) /\
    p1 <> p2 /\
    program_linked w2 p1 = true /\
    program_linked w2 p2 = true.
Proof.
  destruct (build_twice_independent accepting_driver
              "void main() {}" "void main() {}" "" "" "" fresh_context)
    as (p1 & w1 & p2 & w2 & _ & _ & Hmain & Hne & Hp1 & Hp2 & _);
    [reflexivity | reflexivity | reflexivity |].
  exists p1, p2, w2. repeat split; assumption.
Defined.

(** ** When the info log is read *)

(** Membership in the history of a run, call by call. *)
Ltac in_calls :=
  repeat match goal with
  | H : _ ∈ [] |- _ => apply elem_of_nil in H; contradiction
  | H : _ ∈ _ :: _ |- _ =>
      let Hhead := fresh "Hhead" in
      let Htail := fresh "Htail" in
      apply elem_of_cons in H; destruct H as [Hhead|Htail]; [simplify_eq |]
  | H : ex _ |- _ =>
      let n := fresh "n" in
      let Hn := fresh "Hn" in
      destruct H as [n Hn]
  end.

Ltac is_in_calls :=
  solve [repeat first [apply list_elem_of_here | apply list_elem_of_further]].

Ltac log_read_tac :=
  unfold log_read_iff_failure; repeat split; intros; in_calls; try lia;
  first [ is_in_calls
        | eexists; is_in_calls
        | let Hin := fresh "Hin" in intros Hin; in_calls; lia ].

Lemma createShaderProgram_log_reads drv v f w :
  log_read_iff_failure (calls_since w (snd (createShaderProgram drv v f w))).
Proof.
  run_paths drv v f; cbv zeta; cbn [snd]; since; log_read_tac.
Qed.

Lemma main_shader_steps_log_reads drv c w :
  log_read_iff_failure
    (calls_since w (snd (gles_compute_pure.main_shader_steps drv c w))).
Proof.
  run_paths_compute drv c; cbv zeta; cbn [snd]; since; log_read_tac.
Qed.

Lemma createShaderProgram_silent_on_success drv v f w :
  silent_on_success w (createShaderProgram drv v f w).
Proof.
  run_paths drv v f; cbv zeta; unfold silent_on_success; since; reflexivity.
Qed.

Lemma main_shader_steps_silent_on_success drv c w :
  silent_on_success w (gles_compute_pure.main_shader_steps drv c w).
Proof.
  run_paths_compute drv c; cbv zeta; unfold silent_on_success; since; reflexivity.
Qed.

(** C9: in every run of the three builders, the info log of a shader or of
    a program is read exactly when the status query on it answered a
    failure, and never after a query that answered a success; a run that
    returns the program prints nothing, so whatever the driver wrote in the
    info log of an accepted shader or program is dropped. *)
Theorem info_log_read_iff_failure drv v f c w :
  log_read_iff_failure (calls_since w (snd (createShaderProgram drv v f w))) /\
  log_read_iff_failure
    (calls_since w (snd (gles_cube.main_steps_6_9 drv v f w))) /\
  log_read_iff_failure
    (calls_since w (snd (gles_compute_pure.main_shader_steps drv c w))) /\
  silent_on_success w (createShaderProgram drv v f w) /\
  silent_on_success w (gles_cube.main_steps_6_9 drv v f w) /\
  silent_on_success w (gles_compute_pure.main_shader_steps drv c w).
Proof.
  split; [exact (createShaderProgram_log_reads drv v f w)|].
  split; [exact (createShaderProgram_log_reads drv v f w)|].
  split; [exact (main_shader_steps_log_reads drv c w)|].
  split; [exact (createShaderProgram_silent_on_success drv v f w)|].
  split; [exact (createShaderProgram_silent_on_success drv v f w)|].
  exact (main_shader_steps_silent_on_success drv c w).
Qed.

(** With a driver that accepts everything and warns about everything, the
    build returns the program, prints nothing and never reads an info log,
    while the warnings sit in the info logs of the shader and program
    objects. *)
Example warnings_are_dropped :
  let r := createShaderProgram warning_driver "void main() {}" "void main() {}"
             fresh_context in
  fst r = Returned 3%N /\
  stdout (snd r) = [] /\
  sh_info_log <$> gl_shaders (snd r) !! 1%N = Some "warning: unused variable" /\
  pr_info_log <$> gl_programs (snd r) !! 3%N = Some "warning: no vertex attribute".
Proof. vm_compute. repeat split. Qed.

(** ** The exit status *)

(** C10: in the three builders, whichever phase the driver rejects first
    (vertex, fragment or compute compilation, or the link), the process ends
    with the same status -3; the report printed before differs by its
    format, one per phase, and the four formats are pairwise different.
    When the driver rejects nothing the builder returns the program. *)
Theorem every_failure_exits_with_minus_3 drv v f c w :
  match first_failure drv v f with
  | Some (ph, log) =>
      exists w',
        createShaderProgram drv v f w = (Exited (-3), w') /\
        gles_cube.main_steps_6_9 drv v f w = (Exited (-3), w') /\
        printed_since w w' = [Printf (error_format ph) (string_take 511 log)]
  | None =>
      exists p w',
        createShaderProgram drv v f w = (Returned p, w') /\
        gles_cube.main_steps_6_9 drv v f w = (Returned p, w')
  end /\
  match first_failure_compute drv c with
  | Some (ph, log) =>
      exists w',
        gles_compute_pure.main_shader_steps drv c w = (Exited (-3), w') /\
        printed_since w w' = [Printf (error_format ph) (string_take 511 log)]
  | None =>
      exists p w',
        gles_compute_pure.main_shader_steps drv c w = (Returned p, w')
  end /\
  NoDup (map error_format [VertexCompile; FragmentCompile; ComputeCompile; Link]).
Proof.
  split; [|split].
  - pose proof (createShaderProgram_first_failure drv v f w) as H.
    destruct (first_failure drv v f) as [[ph log]|].
    + destruct H as (w' & Hrun & Hout). exists w'. repeat split; assumption.
    + destruct H as (w' & Hrun & _). do 2 eexists. split; exact Hrun.
  - pose proof (main_shader_steps_first_failure drv c w) as H.
    destruct (first_failure_compute drv c) as [[ph log]|].
    + exact H.
    + destruct H as (w' & Hrun & _). do 2 eexists. exact Hrun.
  - apply (bool_decide_unpack _). vm_compute. exact I.
Qed.

(** ** The buffer of the compute example *)

Section ComputeBuffer.
Import gles_compute_pure_buffer.

Lemma store_length idx v mem mem' :
  store idx v mem = Some mem' -> length mem' = length mem.
Proof.
  unfold store. case_bool_decide; [|discriminate].
  intros [= <-]. apply length_insert.
Qed.

Lemma upload_loop (n : nat) (mem : list Z) :
  foldl (fun mem idx => mem ≫= store idx (idx + 1)) (Some mem)
        (seqZ 0 (Z.of_nat n)) =
  if bool_decide (n <= length mem)%nat
  then Some (((fun idx => idx + 1) <$> seqZ 0 (Z.of_nat n)) ++ drop n mem)%list
  else None.
Proof.
  induction n as [|n IH].
  - cbn. rewrite bool_decide_eq_true_2 by lia. now rewrite drop_0.
  - rewrite seqZ_S, foldl_snoc, IH. cbn [Z.add].
    case_bool_decide as Hn.
    + cbn. unfold store.
      rewrite length_app, length_fmap, length_seqZ, length_drop.
      case_bool_decide as Hs; case_bool_decide as Hn'; try lia.
      * f_equal. rewrite fmap_app. cbn. rewrite <- app_assoc. cbn.
        match goal with |- <[_ := _]> (?pre ++ _)%list = _ =>
          replace (Z.to_nat (0 + Z.of_nat n)) with (length pre + 0)%nat
            by (rewrite length_fmap, length_seqZ; lia)
        end.
        rewrite insert_app_r.
        destruct (drop n mem) as [|a rest] eqn:Hd.
        { apply (f_equal length) in Hd. rewrite length_drop in Hd. cbn in Hd. lia. }
        cbn. do 2 f_equal.
        replace (S n) with (n + 1)%nat by lia.
        rewrite <- drop_drop, Hd. reflexivity.
      * reflexivity.
    + cbn. rewrite bool_decide_eq_false_2 by lia. reflexivity.
Qed.

(** X1: the fill loop is defined exactly when the mapped range holds at
    least [itemCount] ints; it then holds [idx + 1] at every [idx] below
    [itemCount], whatever it held before, and what lies beyond is kept. *)
Theorem upload_fills_buffer (inputPtr : list Z) :
  upload inputPtr =
    if bool_decide (Z.to_nat itemCount <= length inputPtr)%nat
    then Some (((fun idx => idx + 1) <$> seqZ 0 itemCount)
                 ++ drop (Z.to_nat itemCount) inputPtr)%list
    else None.
Proof. exact (upload_loop 40 inputPtr). Qed.

Lemma compute_src_main_eq x y z (data : list Z) :
  compute_src_main (x, y, z) data =
    if bool_decide (0 <= x < 10 /\ 4 * x + 1 < Z.of_nat (length data))
    then Some (<[Z.to_nat (4 * x + 1) := 2000 + x]>
                 (<[Z.to_nat (4 * x) := 1000 + x]> data))
    else None.
Proof.
  unfold compute_src_main, store. cbn [fst].
  repeat (case_bool_decide; cbn; rewrite ?length_insert in *); try reflexivity; lia.
Qed.

Lemma compute_src_main_comm a b (mem : option (list Z)) :
  (mem ≫= compute_src_main a) ≫= compute_src_main b =
  (mem ≫= compute_src_main b) ≫= compute_src_main a.
Proof.
  destruct mem as [data|]; [|reflexivity].
  destruct a as [[xa ya] za], b as [[xb yb] zb]. cbn.
  rewrite !compute_src_main_eq.
  repeat (case_bool_decide; cbn; rewrite ?compute_src_main_eq, ?length_insert in *);
    try reflexivity; try lia.
  f_equal. destruct (decide (xa = xb)) as [->|Hne]; [reflexivity|].
  apply list_eq. intros i.
  destruct (decide (i = Z.to_nat (4 * xa))), (decide (i = Z.to_nat (4 * xa + 1))),
           (decide (i = Z.to_nat (4 * xb))), (decide (i = Z.to_nat (4 * xb + 1)));
    subst; try lia;
    repeat first
      [ rewrite list_lookup_insert_eq by (rewrite ?length_insert; lia)
      | rewrite list_lookup_insert_ne by lia ];
    reflexivity.
Qed.

Lemma run_invocations_permutation order1 order2 :
  order1 ≡ₚ order2 ->
  forall mem : option (list Z),
    foldl (fun mem id => mem ≫= compute_src_main id) mem order1 =
    foldl (fun mem id => mem ≫= compute_src_main id) mem order2.
Proof.
  induction 1 as [|id l1 l2 _ IH|id1 id2 l|l1 l2 l3 _ IH1 _ IH2]; intros mem; cbn.
  - reflexivity.
  - apply IH.
  - now rewrite compute_src_main_comm.
  - now rewrite IH1.
Qed.

(** X2: the buffer the dispatch leaves does not depend on the order in
    which the driver runs the invocations: two orders of the same
    invocations give the same buffer, or are both undefined. *)
Theorem dispatch_order_irrelevant order1 order2 (data : list Z) :
  order1 ≡ₚ order2 ->
  run_invocations order1 data = run_invocations order2 data.
Proof. intros Hp. now apply run_invocations_permutation. Qed.

Lemma dispatch_order_irrelevant_witness :
  run_invocations (reverse (invocations 10 1 1)) (replicate 40 7) =
  run_invocations (invocations 10 1 1) (replicate 40 7).
Proof.
  apply (dispatch_order_irrelevant (reverse (invocations 10 1 1))
           (invocations 10 1 1) (replicate 40 7)).
  apply reverse_Permutation.
Defined.



End ComputeBuffer.

(** ** The compute program built after the graphics program *)

Section ComputeSimple.
Variable drv : Driver.
Import gles_compute_simple.

Lemma main_steps_C1_C2_compile_failure c lc w :
  compile_result drv GL_COMPUTE_SHADER c = (false, lc) ->
  let cs := gl_next w in
  main_steps_C1_C2 drv c w =
    (Exited (-3),
     {| gl_next := N.succ cs;
        gl_shaders := <[cs := rejected_stage GL_COMPUTE_SHADER c lc]> (gl_shaders w);
        gl_programs := gl_programs w;
        gl_current := gl_current w;
        gl_errors := gl_errors w;
        gl_calls := gl_calls w ++
          [CreateShader GL_COMPUTE_SHADER cs; ShaderSource cs c; CompileShader cs;
           GetShaderiv cs GL_COMPILE_STATUS false; GetShaderInfoLog cs 512];
        stdout := stdout w ++
          [Printf (compute_error_format ComputeCompile) (string_take 511 lc)] |}).
Proof.
  intros Hc cs. subst cs. destruct w as [n sh pr cur errs calls out].
  unfold main_steps_C1_C2. do 4 step. stop. reflexivity.
Qed.

Lemma main_steps_C1_C2_link_failure c lc ll w :
  compile_result drv GL_COMPUTE_SHADER c = (true, lc) ->
  link_result drv [compiled_stage GL_COMPUTE_SHADER c lc] = (false, ll) ->
  let cs := gl_next w in
  let p := N.succ cs in
  main_steps_C1_C2 drv c w =
    (Exited (-3),
     {| gl_next := N.succ p;
        gl_shaders := <[cs := compiled_stage GL_COMPUTE_SHADER c lc]> (gl_shaders w);
        gl_programs :=
          <[p := {| pr_attached := [cs]; pr_link_status := false;
                    pr_info_log := ll |}]> (gl_programs w);
        gl_current := gl_current w;
        gl_errors := gl_errors w;
        gl_calls := gl_calls w ++
          [CreateShader GL_COMPUTE_SHADER cs; ShaderSource cs c; CompileShader cs;
           GetShaderiv cs GL_COMPILE_STATUS true;
           CreateProgram p; AttachShader p cs; LinkProgram p;
           GetProgramiv p GL_LINK_STATUS false; GetProgramInfoLog p 512];
        stdout := stdout w ++
          [Printf (compute_error_format Link) (string_take 511 ll)] |}).
Proof.
  intros Hc Hl cs p. subst cs p. destruct w as [n sh pr cur errs calls out].
  unfold main_steps_C1_C2. do 9 step. stop. reflexivity.
Qed.

Lemma main_steps_C1_C2_success c lc ll w :
  compile_result drv GL_COMPUTE_SHADER c = (true, lc) ->
  link_result drv [compiled_stage GL_COMPUTE_SHADER c lc] = (true, ll) ->
  let cs := gl_next w in
  let p := N.succ cs in
  main_steps_C1_C2 drv c w =
    (Returned p,
     {| gl_next := N.succ p;
        gl_shaders := <[cs := compiled_stage GL_COMPUTE_SHADER c lc]> (gl_shaders w);
        gl_programs :=
          <[p := {| pr_attached := [cs]; pr_link_status := true;
                    pr_info_log := ll |}]> (gl_programs w);
        gl_current := gl_current w;
        gl_errors := gl_errors w;
        gl_calls := gl_calls w ++
          [CreateShader GL_COMPUTE_SHADER cs; ShaderSource cs c; CompileShader cs;
           GetShaderiv cs GL_COMPILE_STATUS true;
           CreateProgram p; AttachShader p cs; LinkProgram p;
           GetProgramiv p GL_LINK_STATUS true];
        stdout := stdout w |}).
Proof.
  intros Hc Hl cs p. subst cs p. destruct w as [n sh pr cur errs calls out].
  unfold main_steps_C1_C2. do 10 step. reflexivity.
Qed.

End ComputeSimple.

(** X4: when the driver accepts the three shaders and the two programs,
    steps 6 to C.2 return both programs, linked; the vertex and the
    fragment shader are released, and the compute shader is not:
    [glDeleteShader] is called for the first two only, so one shader handle
    is still unreleased when the builds are over. *)
Theorem compute_stage_never_released drv v f c lv lf ll lc llc w :
  compile_result drv GL_VERTEX_SHADER v = (true, lv) ->
  compile_result drv GL_FRAGMENT_SHADER f = (true, lf) ->
  link_result drv [compiled_stage GL_VERTEX_SHADER v lv;
                   compiled_stage GL_FRAGMENT_SHADER f lf] = (true, ll) ->
  compile_result drv GL_COMPUTE_SHADER c = (true, lc) ->
  link_result drv [compiled_stage GL_COMPUTE_SHADER c lc] = (true, llc) ->
  let vs := gl_next w in
  let fs := N.succ vs in
  let p := N.succ fs in
  let cs := N.succ p in
  let cp := N.succ cs in
  exists w',
    gles_compute_simple.main_steps_6_to_C2 drv v f c w = (Returned (p, cp), w') /\
    program_linked w' p = true /\
    program_linked w' cp = true /\
    created_shaders (calls_since w w') = [vs; fs; cs] /\
    filter is_delete (calls_since w w') = [DeleteShader vs; DeleteShader fs] /\
    shader_released w' vs = true /\
    shader_released w' fs = true /\
    shader_released w' cs = false.
Proof.
  intros Hv Hf Hl Hc Hlc vs fs p cs cp.
  pose proof (createShaderProgram_success drv v f lv lf ll w Hv Hf Hl) as Hrun1.
  cbv zeta in Hrun1. fold vs fs p in Hrun1.
  match type of Hrun1 with _ = (_, ?w1) =>
    pose proof (main_steps_C1_C2_success drv c lc llc w1 Hc Hlc) as Hrun2
  end.
  cbv zeta in Hrun2.
  cbn [gl_next gl_shaders gl_programs gl_current gl_errors gl_calls stdout] in Hrun2.
  fold cs cp in Hrun2. rewrite <- app_assoc in Hrun2. cbn [app] in Hrun2.
  eexists. split.
  { unfold gles_compute_simple.main_steps_6_to_C2.
    erewrite bind_run by exact Hrun1. erewrite bind_run by exact Hrun2.
    reflexivity. }
  since. unfold program_linked, shader_released. cbn [gl_programs gl_shaders].
  assert (vs ≠ fs /\ vs ≠ cs /\ fs ≠ cs /\ p ≠ cp) as (? & ? & ? & ?)
    by (subst vs fs p cs cp; lia).
  repeat split; by simplify_map_eq.
Qed.

Lemma compute_stage_never_released_witness :
  exists w',
    gles_compute_simple.main_steps_6_to_C2 accepting_driver
      "void main() {}" "void main() {}" "void main() {}" fresh_context
      = (Returned (3%N, 5%N), w') /\
    shader_released w' 4 = false.
Proof.
  destruct (compute_stage_never_released accepting_driver
              "void main() {}" "void main() {}" "void main() {}"
              "" "" "" "" "" fresh_context)
    as (w' & Hrun & _ & _ & _ & _ & _ & _ & Hcs).
  all: try reflexivity.
  exists w'. split; assumption.
Defined.

(** X5: when the driver accepts the graphics program and rejects a phase
    of the compute build, steps 6 to C.2 end the process with status -3
    after one report on that phase; the graphics program built before is
    still linked, and the five reports of this example have five different
    formats, the link of the compute program having its own. *)
Theorem compute_failure_after_graphics_build drv v f c lv lf ll ph log w :
  compile_result drv GL_VERTEX_SHADER v = (true, lv) ->
  compile_result drv GL_FRAGMENT_SHADER f = (true, lf) ->
  link_result drv [compiled_stage GL_VERTEX_SHADER v lv;
                   compiled_stage GL_FRAGMENT_SHADER f lf] = (true, ll) ->
  first_failure_compute drv c = Some (ph, log) ->
  exists w',
    gles_compute_simple.main_steps_6_to_C2 drv v f c w = (Exited (-3), w') /\
    printed_since w w' =
      [Printf (gles_compute_simple.compute_error_format ph) (string_take 511 log)] /\
    program_linked w' (N.succ (N.succ (gl_next w))) = true /\
    NoDup [error_format VertexCompile; error_format FragmentCompile;
           error_format Link;
           gles_compute_simple.compute_error_format ComputeCompile;
           gles_compute_simple.compute_error_format Link].
Proof.
  intros Hv Hf Hl Hff.
  pose proof (createShaderProgram_success drv v f lv lf ll w Hv Hf Hl) as Hrun1.
  cbv zeta in Hrun1.
  unfold gles_compute_simple.main_steps_6_to_C2.
  erewrite bind_run by exact Hrun1.
  unfold first_failure_compute in Hff.
  destruct (compile_result drv GL_COMPUTE_SHADER c) as [[|] lc] eqn:Hc;
    cbn [fst snd negb] in Hff.
  - destruct (link_result drv [compiled_stage GL_COMPUTE_SHADER c lc])
      as [[|] llc] eqn:Hlc; cbn [fst snd negb] in Hff; [discriminate|].
    injection Hff as <- <-.
    erewrite bind_exit
      by (apply (main_steps_C1_C2_link_failure drv c lc llc); assumption).
    eexists. split; [reflexivity|]. since.
    split; [reflexivity|]. split.
    + unfold program_linked. cbn [gl_programs gl_next].
      now rewrite lookup_insert_ne, lookup_insert_eq by lia.
    + apply (bool_decide_unpack _). vm_compute. exact I.
  - injection Hff as <- <-.
    erewrite bind_exit
      by (apply (main_steps_C1_C2_compile_failure drv c lc); assumption).
    eexists. split; [reflexivity|]. since.
    split; [reflexivity|]. split.
    + unfold program_linked. cbn [gl_programs gl_next].
      now rewrite lookup_insert_eq.
    + apply (bool_decide_unpack _). vm_compute. exact I.
Qed.

Lemma compute_failure_after_graphics_build_witness :
  exists w',
    gles_compute_simple.main_steps_6_to_C2 compute_rejecting_driver
      "void main() {}" "void main() {}" "void main( {" fresh_context
      = (Exited (-3), w') /\
    printed_since fresh_context w' =
      [Printf (error_format ComputeCompile) "0:1: syntax error"].
Proof.
  destruct (compute_failure_after_graphics_build compute_rejecting_driver
              "void main() {}" "void main() {}" "void main( {" "" "" ""
              ComputeCompile "0:1: syntax error" fresh_context)
    as (w' & Hrun & Hout & _); try reflexivity.
  exists w'. split; assumption.
Defined.

(** ** The wireframe mode *)

Lemma deliver_cons W P key scancode action mods events (m : gles_wireframe.Mode) :
  gles_wireframe.deliver W P ((key, scancode, action, mods) :: events) m =
  gles_wireframe.deliver W P events
    (gles_wireframe.key_callback W P key scancode action mods m).
Proof. reflexivity. Qed.

Lemma deliver_from W P events (m : gles_wireframe.Mode) :
  0 <= gles_wireframe.wireframeToggle m < 3 ->
  let presses := length (List.filter (gles_wireframe.is_W_press W P) events) in
  gles_wireframe.wireframeToggle (gles_wireframe.deliver W P events m) =
    (gles_wireframe.wireframeToggle m + Z.of_nat presses) `mod` 3 /\
  length (gles_wireframe.printed (gles_wireframe.deliver W P events m)) =
    (length (gles_wireframe.printed m) + presses)%nat.
Proof.
  revert m. induction events as [|[[[key scancode] action] mods] events IH];
    intros m Hm; cbn zeta.
  - cbn. rewrite Z.add_0_r, Z.mod_small by lia. split; [reflexivity|lia].
  - rewrite deliver_cons.
    cbn [List.filter gles_wireframe.is_W_press].
    unfold gles_wireframe.key_callback.
    destruct (bool_decide (key = W) && bool_decide (action = P)).
    + match goal with |- context [gles_wireframe.deliver W P events ?m'] =>
        destruct (IH m') as [IHt IHp]
      end.
      { cbn. rewrite Z.rem_mod_nonneg by lia.
        pose proof (Z.mod_pos_bound (gles_wireframe.wireframeToggle m + 1) 3).
        lia. }
      cbn zeta in IHt, IHp. rewrite IHt, IHp.
      cbn [gles_wireframe.wireframeToggle gles_wireframe.printed length].
      rewrite Z.rem_mod_nonneg by lia. rewrite length_app. cbn [length].
      split; [|lia].
      rewrite Zplus_mod_idemp_l. f_equal. lia.
    + apply IH. exact Hm.
Qed.

(** X6: whatever key events are delivered, starting from the initial
    mode, the wireframe mode is the number of presses of the W key modulo 3:
    it stays one of 0, 1 and 2, the three cases of the [switch] of the
    fragment shader, so [alpha] is always assigned there; every press of W
    prints one line and no other event prints or changes anything. *)
Theorem wireframe_mode_counts_presses (GLFW_KEY_W GLFW_PRESS : Z) events :
  let m := gles_wireframe.deliver GLFW_KEY_W GLFW_PRESS events
             gles_wireframe.initial in
  let presses :=
    length (List.filter (gles_wireframe.is_W_press GLFW_KEY_W GLFW_PRESS) events) in
  gles_wireframe.wireframeToggle m = Z.of_nat presses `mod` 3 /\
  gles_wireframe.fragment_alpha (gles_wireframe.wireframeToggle m) =
    Some (if bool_decide (Z.of_nat presses `mod` 3 = 2) then 0 else 1) /\
  length (gles_wireframe.printed m) = presses.
Proof.
  intros m presses.
  destruct (deliver_from GLFW_KEY_W GLFW_PRESS events gles_wireframe.initial)
    as [Ht Hp]; [cbn; lia|].
  cbn zeta in Ht, Hp. fold m presses in Ht, Hp. cbn in Ht, Hp.
  clearbody m presses. rewrite Z.add_0_l in Ht.
  split; [exact Ht|]. split; [|exact Hp].
  rewrite Ht. unfold gles_wireframe.fragment_alpha.
  pose proof (Z.mod_pos_bound (Z.of_nat presses) 3 ltac:(lia)).
  repeat case_bool_decide; try reflexivity; exfalso; lia.
Qed.

(** ** The image file *)

Section Ppm.
Import gles_triangle.

Lemma foldl_ignoring {A B} (g : A -> A) (l : list B) (a : A) :
  foldl (fun a _ => g a) a l = Nat.iter (length l) g a.
Proof.
  revert a. induction l as [|b l IH]; intros a; [reflexivity|].
  cbn [foldl length]. rewrite IH. symmetry. apply Nat.iter_succ_r.
Qed.

Lemma iter_iter {A} (g : A -> A) (h w : nat) (a : A) :
  Nat.iter h (Nat.iter w g) a = Nat.iter (h * w) g a.
Proof.
  induction h as [|h IH]; [reflexivity|].
  rewrite Nat.iter_succ, IH. cbn [Nat.mul]. symmetry. apply Nat.iter_add.
Qed.

Lemma iter_ext {A} (g1 g2 : A -> A) (n : nat) (a : A) :
  (forall a, g1 a = g2 a) -> Nat.iter n g1 a = Nat.iter n g2 a.
Proof.
  intros Hg. induction n as [|n IH]; [reflexivity|].
  now rewrite !Nat.iter_succ, IH, Hg.
Qed.

Lemma write_pixels n (file row : list Ascii.ascii) :
  (4 * n <= length row)%nat ->
  Nat.iter n (fun st => st ≫= write_pixel) (Some (file, row)) =
    Some ((file ++ rgb_bytes n row)%list, drop (4 * n) row).
Proof.
  revert file row. induction n as [|n IH]; intros file row Hlen.
  - cbn. now rewrite app_nil_r.
  - rewrite Nat.iter_succ_r. cbn [mbind option_bind write_pixel].
    rewrite bool_decide_eq_true_2 by lia.
    rewrite IH by (rewrite length_drop; lia).
    cbn [rgb_bytes]. rewrite <- app_assoc, drop_drop.
    do 3 f_equal. lia.
Qed.

Lemma rgb_bytes_length n (row : list Ascii.ascii) :
  (4 * n <= length row)%nat -> length (rgb_bytes n row) = (3 * n)%nat.
Proof.
  revert row. induction n as [|n IH]; intros row Hlen; [reflexivity|].
  cbn [rgb_bytes]. rewrite length_app, length_take, IH
    by (rewrite length_drop; lia). lia.
Qed.

Lemma rgb_bytes_lookup n (row : list Ascii.ascii) i c :
  (4 * n <= length row)%nat -> (i < n)%nat -> (c < 3)%nat ->
  rgb_bytes n row !! (3 * i + c)%nat = row !! (4 * i + c)%nat.
Proof.
  revert row i. induction n as [|n IH]; intros row i Hlen Hi Hc; [lia|].
  cbn [rgb_bytes]. destruct i as [|i].
  - rewrite lookup_app_l by (rewrite length_take; lia).
    cbn. apply lookup_take_lt. lia.
  - rewrite lookup_app_r by (rewrite length_take; lia).
    rewrite length_take.
    replace (3 * S i + c - 3 `min` length row)%nat with (3 * i + c)%nat by lia.
    rewrite IH by (rewrite ?length_drop; lia).
    rewrite lookup_drop. f_equal. lia.
Qed.

Lemma write_ppm_eq w h (pixels : list Ascii.ascii) :
  0 <= w < 2 ^ 31 -> 0 <= h < 2 ^ 31 ->
  length pixels = Z.to_nat (w * h * 4) ->
  write_ppm w h pixels =
    Some (ppm_header w h ++ rgb_bytes (Z.to_nat (w * h)) pixels)%list.
Proof.
  intros Hw Hh Hlen. unfold write_ppm.
  rewrite !Z.mod_small by lia.
  rewrite (foldl_ignoring
             (fun st => foldl (fun st _ => st ≫= write_pixel) st (seqZ 0 w))).
  rewrite (iter_ext _ (Nat.iter (Z.to_nat w) (fun st => st ≫= write_pixel))); cycle 1.
  { intros st. rewrite (foldl_ignoring (fun st => st ≫= write_pixel)).
    now rewrite length_seqZ. }
  rewrite length_seqZ, iter_iter.
  replace (Z.to_nat h * Z.to_nat w)%nat with (Z.to_nat (w * h)) by lia.
  rewrite write_pixels by lia. reflexivity.
Qed.

End Ppm.

(** X7: with a width and a height in the range of a non-negative [int] and
    four bytes per pixel in the buffer, the file is the header followed by
    three bytes per pixel, in the order of the buffer: byte [c] of pixel
    [i] of the file is byte [c] of pixel [i] of the buffer for the three
    colours, and the fourth byte of a pixel is never written. *)
Theorem ppm_file_contents w h (pixels : list Ascii.ascii) :
  0 <= w < 2 ^ 31 -> 0 <= h < 2 ^ 31 ->
  length pixels = Z.to_nat (w * h * 4) ->
  exists file,
    gles_triangle.write_ppm w h pixels = Some file /\
    take (length (gles_triangle.ppm_header w h)) file = gles_triangle.ppm_header w h /\
    length file =
      (length (gles_triangle.ppm_header w h) + 3 * Z.to_nat (w * h))%nat /\
    forall i c, (i < Z.to_nat (w * h))%nat -> (c < 3)%nat ->
      file !! (length (gles_triangle.ppm_header w h) + (3 * i + c))%nat =
      pixels !! (4 * i + c)%nat.
Proof.
  intros Hw Hh Hlen. eexists. split; [now apply write_ppm_eq|].
  split; [now rewrite take_app_length|].
  split.
  - rewrite length_app, rgb_bytes_length by lia. reflexivity.
  - intros i c Hi Hc. rewrite lookup_app_r by lia.
    replace (length (gles_triangle.ppm_header w h) + (3 * i + c)
             - length (gles_triangle.ppm_header w h))%nat
      with (3 * i + c)%nat by lia.
    apply rgb_bytes_lookup; lia.
Qed.

Lemma ppm_file_contents_witness :
  gles_triangle.write_ppm 2 1
    (String.list_ascii_of_string "RGBArgba") =
  Some (String.list_ascii_of_string ("P6" +:+ LF +:+ "2" +:+ LF +:+ "1" +:+ LF
                                       +:+ "255" +:+ LF +:+ "RGBrgb")).
Proof.
  destruct (ppm_file_contents 2 1 (String.list_ascii_of_string "RGBArgba"))
    as (file & Hfile & _); [lia | lia | reflexivity |].
  rewrite Hfile. vm_compute in Hfile. injection Hfile as <-. reflexivity.
Defined.

(** X8: two pixel buffers of the image size that differ only in the fourth
    byte of some pixels give the same file. *)
Theorem ppm_ignores_alpha w h (pixels pixels' : list Ascii.ascii) :
  0 <= w < 2 ^ 31 -> 0 <= h < 2 ^ 31 ->
  length pixels = Z.to_nat (w * h * 4) ->
  length pixels' = Z.to_nat (w * h * 4) ->
  (forall i c, (i < Z.to_nat (w * h))%nat -> (c < 3)%nat ->
     pixels !! (4 * i + c)%nat = pixels' !! (4 * i + c)%nat) ->
  gles_triangle.write_ppm w h pixels = gles_triangle.write_ppm w h pixels'.
Proof.
  intros Hw Hh Hlen Hlen' Hsame.
  rewrite !write_ppm_eq by assumption. do 2 f_equal.
  apply list_eq. intros j.
  destruct (decide (j < 3 * Z.to_nat (w * h))%nat) as [Hj|Hj].
  - replace j with (3 * (j / 3) + j mod 3)%nat by (apply Nat.div_mod_eq || (symmetry; apply Nat.div_mod_eq)).
    assert (j / 3 < Z.to_nat (w * h))%nat by (apply Nat.Div0.div_lt_upper_bound; lia).
    assert (j mod 3 < 3)%nat by (apply Nat.mod_upper_bound; lia).
    rewrite !rgb_bytes_lookup by lia. now apply Hsame.
  - rewrite !lookup_ge_None_2; [reflexivity| |];
      rewrite rgb_bytes_length by lia; lia.
Qed.

Lemma ppm_ignores_alpha_witness :
  gles_triangle.write_ppm 2 1 (String.list_ascii_of_string "RGBArgba") =
  gles_triangle.write_ppm 2 1 (String.list_ascii_of_string "RGBxrgby").
Proof.
  apply (ppm_ignores_alpha 2 1); [lia | lia | reflexivity | reflexivity |].
  intros [|[|i]] [|[|[|c]]] Hi Hc; try lia; reflexivity.
Defined.

(** ** The frame of the depth cube *)

(** The world after [glUseProgram] took a linked program, or zero. *)
Lemma use_program_linked (program : N) (m : Machine) :
  program <> 0%N ->
  program_linked (gl m) program = true ->
  pipeline.glUseProgram program m =
    with_gl
      {| gl_next := gl_next (gl m); gl_shaders := gl_shaders (gl m);
         gl_programs := gl_programs (gl m); gl_current := program;
         gl_errors := gl_errors (gl m);
         gl_calls := gl_calls (gl m) ++ [UseProgram program];
         stdout := stdout (gl m) |} m.
Proof.
  intros Hne Hlinked. destruct m as [[n sh pr cur errs calls out] F V T B E Fx].
  unfold program_linked in Hlinked. cbn [gl gl_programs] in Hlinked.
  destruct (pr !! program) as [p|] eqn:Hp; [|discriminate].
  unfold pipeline.glUseProgram, glUseProgram_of_world, glUseProgram, with_gl.
  rewrite bool_decide_eq_false_2 by exact Hne.
  cbv beta iota zeta delta
    [gl log_call gl_programs gl_next gl_shaders gl_current gl_errors gl_calls
     stdout framebuffer_names vertex_array_names table texture_binding_2d
     errors effects].
  unfold GLuint. rewrite Hp, Hlinked. reflexivity.
Qed.

Section Pipeline.
Import pipeline gles_depth_cube_main.

Lemma viewport_within x y width height max_width max_height (m : Machine) :
  table m !! "GL_MAX_VIEWPORT_DIMS" = Some (Ints [max_width; max_height]) ->
  0 <= width <= max_width -> 0 <= height <= max_height ->
  glViewport x y width height m =
    set_state "GL_VIEWPORT" (Ints [x; y; width; height]) m.
Proof.
  intros Hmax Hw Hh. unfold glViewport, ints.
  rewrite bool_decide_eq_false_2 by lia. rewrite Hmax.
  now rewrite !Z.min_l by lia.
Qed.

Lemma scissor_box x y width height (m : Machine) :
  0 <= width -> 0 <= height ->
  glScissor x y width height m =
    set_state "GL_SCISSOR_BOX" (Ints [x; y; width; height]) m.
Proof.
  intros Hw Hh. unfold glScissor. now rewrite bool_decide_eq_false_2 by lia.
Qed.

Lemma bind_framebuffer_known target framebuffer (m : Machine) :
  framebuffer = 0%N \/ framebuffer ∈ framebuffer_names m ->
  glBindFramebuffer target framebuffer m =
    match target with
    | GL_FRAMEBUFFER =>
        set_state "GL_READ_FRAMEBUFFER_BINDING" (Ints [Z.of_N framebuffer])
          (set_state "GL_DRAW_FRAMEBUFFER_BINDING" (Ints [Z.of_N framebuffer]) m)
    | GL_DRAW_FRAMEBUFFER =>
        set_state "GL_DRAW_FRAMEBUFFER_BINDING" (Ints [Z.of_N framebuffer]) m
    | GL_READ_FRAMEBUFFER =>
        set_state "GL_READ_FRAMEBUFFER_BINDING" (Ints [Z.of_N framebuffer]) m
    end.
Proof.
  intros H. unfold glBindFramebuffer. now rewrite bool_decide_eq_true_2 by exact H.
Qed.

Lemma bind_vertex_array_known array (m : Machine) :
  array ∈ vertex_array_names m ->
  glBindVertexArray array m =
    set_state "GL_VERTEX_ARRAY_BINDING" (Ints [Z.of_N array]) m.
Proof.
  intros H. unfold glBindVertexArray.
  now rewrite bool_decide_eq_true_2 by (right; exact H).
Qed.

(** The effect of a call that sets a uniform, if any. *)
Lemma uniform_with_program e location (m : Machine) :
  gl_current (gl m) <> 0%N ->
  uniform e location m =
    {| gl := gl m; framebuffer_names := framebuffer_names m;
       vertex_array_names := vertex_array_names m; table := table m;
       texture_binding_2d := texture_binding_2d m; errors := errors m;
       effects := effects m ++
                  (if bool_decide (location = -1) then []
                   else [e (gl_current (gl m))]) |}.
Proof.
  intros H. unfold uniform. rewrite bool_decide_eq_false_2 by exact H.
  destruct m; unfold effect; cbn.
  destruct (bool_decide (location = -1)); [|reflexivity].
  now rewrite app_nil_r.
Qed.

Lemma draw_arrays_count mode first count (m : Machine) :
  0 <= count ->
  glDrawArrays mode first count m =
    effect (DrawArrays mode first count (gl_current (gl m)) (table m)) m.
Proof.
  intros H. unfold glDrawArrays. now rewrite bool_decide_eq_false_2 by lia.
Qed.

Lemma block_cons c cs (m : Machine) : block (c :: cs) m = block cs (c m).
Proof. reflexivity. Qed.

Lemma block_nil (m : Machine) : block [] m = m.
Proof. reflexivity. Qed.

Ltac pipe_norm :=
  cbv beta iota zeta delta
    [glfwPollEvents glfwSwapBuffers effect set_state with_table with_gl raise
     glClear glClearColor glBlitFramebuffer glEnable glUniformMatrix4fv
     glUniform3f glUniform1i with_texture_binding_2d
     gl framebuffer_names vertex_array_names table texture_binding_2d errors
     effects gl_next gl_shaders gl_programs gl_current gl_errors gl_calls
     stdout].

Ltac side :=
  pipe_norm;
  first
    [ lia
    | assumption
    | left; reflexivity
    | right; assumption
    | rewrite ?lookup_insert_ne by done; assumption
    | unfold program_linked; pipe_norm; assumption ].

Ltac call_step mw mh :=
  rewrite block_cons; pipe_norm;
  first
    [ rewrite (viewport_within _ _ _ _ mw mh) by side
    | rewrite scissor_box by lia
    | rewrite bind_framebuffer_known by side
    | rewrite bind_vertex_array_known by side
    | rewrite use_program_linked by side
    | rewrite uniform_with_program by side
    | rewrite draw_arrays_count by lia
    | idtac ];
  pipe_norm.

Ltac table_lookup :=
  repeat (rewrite lookup_insert_eq ||
          rewrite lookup_insert_ne by (assumption || discriminate)).

Ltac table_eq :=
  let k := fresh "k" in
  apply map_eq; intros k;
  repeat match goal with
  | |- context [<[?k' := _]> _ !! k] =>
      destruct (decide (k' = k)) as [<-|?];
      [table_lookup; reflexivity|table_lookup]
  end; reflexivity.

Ltac pass_facts :=
  unfold cube_pass, quad_pass, tests_enabled, whole_window, ints, flag;
  table_lookup; repeat split; try assumption; try reflexivity.

Ltac solve_pass :=
  cbn [in_its_pass];
  first [ exact I | solve [pass_facts] | left; solve [pass_facts]
        | right; solve [pass_facts] ].

Lemma frame_run (l : Locals) (reading : nat) (m : Machine) :
  ready l m ->
  exists new,
    frame l reading m =
      {| gl :=
           {| gl_next := gl_next (gl m); gl_shaders := gl_shaders (gl m);
              gl_programs := gl_programs (gl m);
              gl_current := texture_program l;
              gl_errors := gl_errors (gl m);
              gl_calls := gl_calls (gl m) ++
                            [UseProgram (cube_program l);
                             UseProgram (texture_program l)];
              stdout := stdout (gl m) |};
         framebuffer_names := framebuffer_names m;
         vertex_array_names := vertex_array_names m;
         table := after_frame l (table m);
         texture_binding_2d := texture_binding_2d m;
         errors := errors m;
         effects := effects m ++ new |} /\
    (tests_enabled (table m) -> Forall (in_its_pass l) new) /\
    length (filter writes_pixels new) = 6%nat.
Proof.
  intros Hready.
  destruct m as [[n sh pr cur errs calls out] F V T B E Fx].
  destruct Hready as (Hfbo & Hcvao & Htvao & Hcp & Htp & Hcl & Htl &
                      mw & mh & Hmax & Hw & Hh & Hmw & Hmh).
  unfold program_linked in Hcl, Htl.
  cbv beta iota zeta delta [gl framebuffer_names vertex_array_names table
    gl_programs] in *.
  unfold frame.
  do 24 (call_step mw mh).
  rewrite block_nil. change (Z.of_N 0) with 0.
  eexists. split; [|split].
  - f_equal.
    + f_equal. now rewrite <- app_assoc.
    + unfold after_frame. table_eq.
    + rewrite <- !app_assoc. cbn [app]. reflexivity.
  - intros [Hdepth Hscissor]. unfold flag in Hdepth, Hscissor.
    repeat first
      [ apply Forall_nil_2
      | apply Forall_cons_2; [solve_pass|]
      | apply Forall_app_2;
        [destruct (bool_decide (_ = -1));
         [apply Forall_nil_2
         |apply Forall_cons_2; [reflexivity|apply Forall_nil_2]]|] ].
  - (destruct (bool_decide (modelLoc l = -1));
    destruct (bool_decide (viewLoc l = -1));
    destruct (bool_decide (uniformColorLoc l = -1)); reflexivity).
Qed.

Lemma render_loop_S (l : Locals) (n : nat) (m : Machine) :
  render_loop l (S n) m = frame l n (render_loop l n m).
Proof. unfold render_loop. now rewrite seq_S, foldl_app. Qed.

Lemma after_frame_idem (l : Locals) (state : gmap string Value) :
  after_frame l (after_frame l state) = after_frame l state.
Proof. unfold after_frame. table_eq. Qed.

Lemma tests_enabled_after_frame (l : Locals) (state : gmap string Value) :
  tests_enabled state -> tests_enabled (after_frame l state).
Proof.
  unfold tests_enabled, after_frame, flag. now table_lookup.
Qed.

Lemma ready_after_frame (l : Locals) (reading : nat) (m : Machine) :
  ready l m -> ready l (frame l reading m).
Proof.
  intros Hready. destruct (frame_run l reading m Hready) as (new & -> & _).
  destruct Hready as (Hfbo & Hcvao & Htvao & Hcp & Htp & Hcl & Htl &
                      mw & mh & Hmax & Hw & Hh & Hmw & Hmh).
  unfold ready, program_linked in *.
  cbv beta iota zeta delta [gl framebuffer_names vertex_array_names table
    gl_programs].
  repeat (split; [assumption|]).
  exists mw, mh. unfold after_frame. table_lookup. auto.
Qed.

(** What holds after [n] frames. *)
Lemma render_loop_run (l : Locals) (n : nat) (m : Machine) :
  ready l m ->
  ready l (render_loop l n m) /\
  errors (render_loop l n m) = errors m /\
  texture_binding_2d (render_loop l n m) = texture_binding_2d m /\
  (tests_enabled (table m) -> tests_enabled (table (render_loop l n m))) /\
  (n <> 0%nat ->
   table (render_loop l n m) = after_frame l (table m) /\
   gl_current (gl (render_loop l n m)) = texture_program l) /\
  exists new,
    effects (render_loop l n m) = (effects m ++ new)%list /\
    (tests_enabled (table m) -> Forall (in_its_pass l) new) /\
    length (filter writes_pixels new) = (6 * n)%nat.
Proof.
  intros Hready. induction n as [|n IH].
  - split; [exact Hready|]. do 3 (split; [done|]). split; [done|].
    exists []. now rewrite app_nil_r.
  - destruct IH as (Hr & He & Hb & Ht & Hn & new & Hfx & Hall & Hlen).
    rewrite render_loop_S.
    destruct (frame_run l n _ Hr) as (new' & Heq & Hall' & Hlen').
    split; [now apply ready_after_frame|].
    rewrite Heq. cbn [errors texture_binding_2d table gl gl_current effects].
    split; [exact He|]. split; [exact Hb|]. split; [|split].
    + intros H. now apply tests_enabled_after_frame, Ht.
    + intros _. split; [|reflexivity]. destruct n as [|n]; [reflexivity|].
      destruct Hn as [-> _]; [done|]. apply after_frame_idem.
    + exists (new ++ new')%list. rewrite Hfx, <- app_assoc. split; [done|].
      split.
      * intros H. apply Forall_app_2; [now apply Hall|]. now apply Hall', Ht.
      * rewrite filter_app, length_app, Hlen, Hlen'. lia.
Qed.








(** X10: after one frame or more the state table is the one the loop
    started with, overwritten by the last settings of the frame, the
    texture program is current and the textures bound to the units are
    untouched, however many frames ran. *)
Theorem frame_leaves_steady_state (l : Locals) (n : nat) (m : Machine) :
  ready l m ->
  table (render_loop l (S n) m) = after_frame l (table m) /\
  gl_current (gl (render_loop l (S n) m)) = texture_program l /\
  texture_binding_2d (render_loop l (S n) m) = texture_binding_2d m.
Proof.
  intros Hready.
  destruct (render_loop_run l (S n) m Hready)
    as (_ & _ & Hb & _ & Hn & _).
  destruct Hn as [Ht Hc]; [done|]. auto.
Qed.

Lemma frame_leaves_steady_state_witness :
  table (render_loop window_1024x600 3 machine_after_setup) =
    after_frame window_1024x600 (table machine_after_setup) /\
  gl_current (gl (render_loop window_1024x600 3 machine_after_setup)) = 6%N.
Proof.
  assert (Hready : ready window_1024x600 machine_after_setup).
  { unfold ready, program_linked. cbn. repeat split; try done.
    exists 4096, 4096. repeat split; (reflexivity || lia). }
  destruct (frame_leaves_steady_state window_1024x600 2 machine_after_setup Hready)
    as (Ht & Hc & _).
  split; [exact Ht|exact Hc].
Defined.



End Pipeline.
